(** * LearnX backend: the live broadcast session coordinator of [server.js]

    The development embeds the in-memory session registry ([sessions], a JS
    [Map]), the [join-broadcast] socket handler, the
    [GET /api/live-sessions] handler and the CORS middleware of
    [src/server.js], and states the properties of the coordinator over
    that embedding. *)

From stdpp Require Import base strings gmap list.
From Stdlib Require Import ZArith.

Local Open Scope string_scope.
Set Warnings "-clear-no-such-hyp".

(** ** Data model *)

(** A [Date] object, by its epoch milliseconds.  Every [Date] object is
    truthy in JS, whatever its value, so [null]/[Date] is [option Date]. *)
Definition Date : Type := Z.

(** [session.instructor = { id, socketId, active }] (server.js:157). *)
Record instructor_t : Type := Instructor {
  i_id : string;
  i_socketId : string;
  i_active : bool
}.

(** A value of [session.students]: [{ socketId, active, joinedAt }]
    (server.js:166-170). *)
Record student_t : Type := Student {
  s_socketId : string;
  s_active : bool;
  s_joinedAt : Date
}.

(** The session object built at server.js:135-142.  [students] is a JS
    [Map] of which the code only uses [set] and [size]; [messages] is an
    array that the code never appends to. *)
Record session : Type := Session {
  instructor : option instructor_t;
  students : gmap string student_t;
  messages : list string;
  isLive : bool;
  startTime : option Date;
  createdAt : Date
}.

(** ** The [sessions] registry: a JS [Map] in insertion order

    [sessions.forEach] (server.js:199) visits the entries in insertion
    order and the order shows in the HTTP response, so the registry is an
    association list: [set] on a present key replaces the value in place,
    [set] on an absent key appends. *)
Section JsMap.
Context {V : Type}.

Fixpoint Map_get (k : string) (m : list (string * V)) : option V :=
  match m with
  | [] => None
  | (k', v) :: m' => if decide (k = k') then Some v else Map_get k m'
  end.

Fixpoint Map_set (k : string) (v : V) (m : list (string * V))
    : list (string * V) :=
  match m with
  | [] => [(k, v)]
  | (k', v') :: m' =>
      if decide (k = k') then (k, v) :: m' else (k', v') :: Map_set k v m'
  end.

End JsMap.

(** ** socket.io rooms

    The adapter's table from a room name to the set of socket ids in it.
    [socket.join(room)] adds the socket, [socket.leave(room)] removes it
    and drops a room left empty. *)
Definition socket_join (socket room : string)
    (rooms : gmap string (gset string)) : gmap string (gset string) :=
  <[room := {[socket]} ∪ default ∅ (rooms !! room)]> rooms.

Definition room_del (socket : string) (members : gset string)
    : option (gset string) :=
  let members' := members ∖ {[socket]} in
  if decide (members' = ∅) then None else Some members'.

Definition socket_leave (socket room : string)
    (rooms : gmap string (gset string)) : gmap string (gset string) :=
  match rooms !! room with
  | Some members =>
      match room_del socket members with
      | Some members' => <[room := members']> rooms
      | None => delete room rooms
      end
  | None => rooms
  end.

(** On disconnection socket.io removes the socket from every room. *)
Definition socket_leave_all (socket : string)
    (rooms : gmap string (gset string)) : gmap string (gset string) :=
  omap (room_del socket) rooms.

(** The sockets an [io.to(room)] emission reaches. *)
Definition room_members (rooms : gmap string (gset string)) (room : string)
    : gset string :=
  default ∅ (rooms !! room).

(** ** Outbound events *)

(** [socket.emit(...)] reaches the one socket; [io.to(room).emit(...)]
    reaches the members of [room]. *)
Inductive target : Type :=
  | ToSocket (socket : string)
  | ToRoom (room : string).

(** The five events of the handler with their payloads. *)
Inductive message : Type :=
  | Error (text : string)
  | BroadcastStarted (instructorId : string) (start : option Date)
  | StudentJoined (roomId userId : string) (totalStudents : nat)
  | SessionInfo (live : bool) (start : option Date) (msgs : list string)
      (totalStudents : nat) (instructorActive : bool)
  | ParticipantsUpdated (count : nat).

Definition emit : Type := target * message.

Definition event_name (m : message) : string :=
  match m with
  | Error _ => "error"
  | BroadcastStarted _ _ => "broadcast-started"
  | StudentJoined _ _ _ => "student-joined"
  | SessionInfo _ _ _ _ _ => "session-info"
  | ParticipantsUpdated _ => "participants-updated"
  end.

(** ** The state of the server *)

Record world : Type := World {
  sessions : list (string * session);
  rooms : gmap string (gset string)
}.

(** [const sessions = new Map()] and no socket connected. *)
Definition initial : world := {| sessions := []; rooms := ∅ |}.

(** ** The [join-broadcast] handler (server.js:125-192) *)

(** [!s] on a string. *)
Definition falsy (s : string) : bool := bool_decide (s = "").

(** The guard of server.js:126. *)
Definition invalid_join (roomId userId userType : string) : bool :=
  falsy roomId || falsy userId
  || negb (bool_decide (userType ∈ ["instructor"; "student"])).

(** The object literal of server.js:135-142. *)
Definition new_session (now : Date) : session :=
  {| instructor := None; students := ∅; messages := []; isLive := false;
     startTime := None; createdAt := now |}.

(** [session.instructor?.active], as a truth value. *)
Definition instructor_active (s : session) : bool :=
  match instructor s with
  | Some i => i_active i
  | None => false
  end.

(** The guard of server.js:147-151. *)
Definition instructor_conflict (s : session) (socket : string) : bool :=
  match instructor s with
  | Some i => i_active i && negb (bool_decide (i_socketId i = socket))
  | None => false
  end.

(** The [count] of server.js:190. *)
Definition participants (s : session) : nat :=
  size (students s) + (if instructor_active s then 1 else 0).

(** server.js:157-159 on the session object. *)
Definition admit_instructor (socket userId : string) (now : Date)
    (s : session) : session :=
  {| instructor := Some {| i_id := userId; i_socketId := socket;
                           i_active := true |};
     students := students s;
     messages := messages s;
     isLive := true;
     startTime := match startTime s with
                  | Some t => Some t
                  | None => Some now
                  end;
     createdAt := createdAt s |}.

(** server.js:166-170 on the session object. *)
Definition admit_student (socket userId : string) (now : Date)
    (s : session) : session :=
  {| instructor := instructor s;
     students := <[userId := {| s_socketId := socket; s_active := true;
                                s_joinedAt := now |}]> (students s);
     messages := messages s;
     isLive := isLive s;
     startTime := startTime s;
     createdAt := createdAt s |}.

(** server.js:132-144: the session of the room and the registry after the
    lookup, the session being registered when the room was unknown. *)
Definition get_or_create (roomId : string) (now : Date)
    (ss : list (string * session)) : session * list (string * session) :=
  match Map_get roomId ss with
  | Some s => (s, ss)
  | None => (new_session now, Map_set roomId (new_session now) ss)
  end.

(** server.js:172-178. *)
Definition student_joined (roomId userId : string) (s : session)
    : list emit :=
  match instructor s with
  | Some i =>
      if i_active i
      then [(ToRoom (i_socketId i),
             StudentJoined roomId userId (size (students s)))]
      else []
  | None => []
  end.

(** The handler.  [tCreate] is what [new Date()] gives at line 141 and
    [tNow] what it gives at line 159 or 169; a run evaluates at most one
    of the last two.  The session object is shared with the registry, so
    its mutation is a [Map_set] at the room's key. *)
Definition join_broadcast (socket roomId userId userType : string)
    (tCreate tNow : Date) (w : world) : world * list emit :=
  if invalid_join roomId userId userType then
    (w, [(ToSocket socket, Error "Invalid join parameters.")])
  else
    let rooms1 := socket_join socket roomId (rooms w) in
    let '(s, sessions1) := get_or_create roomId tCreate (sessions w) in
    if bool_decide (userType = "instructor") then
      if instructor_conflict s socket then
        ({| sessions := sessions1;
            rooms := socket_leave socket roomId rooms1 |},
         [(ToSocket socket,
           Error "Another instructor is already active in this session.")])
      else
        let s' := admit_instructor socket userId tNow s in
        ({| sessions := Map_set roomId s' sessions1; rooms := rooms1 |},
         [(ToRoom roomId, BroadcastStarted userId (startTime s'));
          (ToRoom roomId, ParticipantsUpdated (participants s'))])
    else
      let s' := admit_student socket userId tNow s in
      ({| sessions := Map_set roomId s' sessions1; rooms := rooms1 |},
       (student_joined roomId userId s'
        ++ [(ToSocket socket,
             SessionInfo (isLive s') (startTime s') (messages s')
               (size (students s')) (instructor_active s'));
            (ToRoom roomId, ParticipantsUpdated (participants s'))])%list).

(** ** What a socket can do to the server (server.js:122-193)

    The connection callback registers one listener, for [join-broadcast].
    A new socket is put by socket.io in the room named by its own id, and
    a closed one is taken out of every room; the program has no listener
    for the closing of a connection. *)
Inductive event : Type :=
  | Connection
  | JoinBroadcast (roomId userId userType : string) (tCreate tNow : Date)
  | Disconnect.

Definition handle (socket : string) (e : event) (w : world)
    : world * list emit :=
  match e with
  | Connection =>
      ({| sessions := sessions w;
          rooms := socket_join socket socket (rooms w) |}, [])
  | JoinBroadcast roomId userId userType tCreate tNow =>
      join_broadcast socket roomId userId userType tCreate tNow w
  | Disconnect =>
      ({| sessions := sessions w;
          rooms := socket_leave_all socket (rooms w) |}, [])
  end.

(** The server processes the events one at a time (the event loop); the
    emissions are collected in order. *)
Fixpoint run (evs : list (string * event)) (w : world) : world * list emit :=
  match evs with
  | [] => (w, [])
  | (socket, e) :: evs' =>
      let '(w1, out1) := handle socket e w in
      let '(w2, out2) := run evs' w1 in
      (w2, (out1 ++ out2)%list)
  end.

(** ** [GET /api/live-sessions] (server.js:196-214) *)

Record live_entry : Type := LiveEntry {
  le_id : string;
  le_startTime : option Date;
  le_participants : nat;
  le_instructorId : string
}.

Record live_response : Type := LiveResponse {
  success : bool;
  active_sessions : list live_entry
}.

(** The body of the [forEach] callback: [acc] is [activeSessions]. *)
Definition push_if_live (acc : list live_entry) (kv : string * session)
    : list live_entry :=
  let '(roomId, s) := kv in
  match instructor s with
  | Some i =>
      if isLive s && i_active i then
        (acc ++ [{| le_id := roomId;
                   le_startTime := startTime s;
                   le_participants :=
                     size (students s) + (if i_active i then 1 else 0);
                   le_instructorId := i_id i |}])%list
      else acc
  | None => acc
  end.

Definition live_sessions (w : world) : world * live_response :=
  (w, {| success := true;
         active_sessions := fold_left push_if_live (sessions w) [] |}).

(** ** Scenario of the specification

    Instructor [A] opens room [r1] on socket [sA], then student [B] joins
    on socket [sB]. *)
Definition scenario : list (string * event) :=
  [("sA", Connection);
   ("sA", JoinBroadcast "r1" "A" "instructor" 5%Z 10%Z);
   ("sB", Connection);
   ("sB", JoinBroadcast "r1" "B" "student" 15%Z 20%Z)].

Definition classroom : world := (run scenario initial).1.

(** The session of [r1] in [classroom]. *)
Definition lecture : session :=
  {| instructor := Some (Instructor "A" "sA" true);
     students := {[ "B" := Student "sB" true 20%Z ]};
     messages := []; isLive := true; startTime := Some 10%Z;
     createdAt := 5%Z |}.

(** ** What one event does to one room's session

    Seen from a room, an event either leaves the room's registry entry as
    it is, or admits an instructor into the room's session, or admits a
    student; the session admitted into is the registered one, or the
    fresh one when the room was unknown. *)
Inductive session_step (socket : string)
    : option session → option session → Prop :=
  | step_idle o : session_step socket o o
  | step_instructor o tCreate userId tNow :
      instructor_conflict (default (new_session tCreate) o) socket = false →
      session_step socket o
        (Some (admit_instructor socket userId tNow
                 (default (new_session tCreate) o)))
  | step_student o tCreate userId tNow :
      session_step socket o
        (Some (admit_student socket userId tNow
                 (default (new_session tCreate) o))).

(** In every state the code can reach, a session has no instructor
    record, is not live and has never started, or it has an active
    instructor record, is live and has started. *)
Definition session_inv (s : session) : Prop :=
  match instructor s with
  | None => isLive s = false ∧ startTime s = None
  | Some i => i_active i = true ∧ isLive s = true ∧ is_Some (startTime s)
  end.

(** The two guards under which the handler returns without admitting
    (server.js:126 and server.js:147-151), on the state before the
    request. *)
Definition join_rejected (socket roomId userId userType : string)
    (w : world) : bool :=
  invalid_join roomId userId userType
  || (bool_decide (userType = "instructor")
      && match Map_get roomId (sessions w) with
         | Some s => instructor_conflict s socket
         | None => false
         end).

Definition is_participants_updated (e : emit) : bool :=
  bool_decide (event_name e.2 = "participants-updated").

(** The [startTime] of a room's session, if the room has one. *)
Definition startTime_of (roomId : string) (w : world) : option Date :=
  Map_get roomId (sessions w) ≫= startTime.

(** The entry the query reports for a live session. *)
Definition live_entry_of (roomId : string) (s : session) (i : instructor_t)
    : live_entry :=
  {| le_id := roomId; le_startTime := startTime s;
     le_participants := size (students s) + 1; le_instructorId := i_id i |}.

(** The listing in the words of the specification: the registry's
    sessions, in order, filtered for [isLive] and an active instructor,
    each with [students.size + 1] participants. *)
Definition listActive (ss : list (string * session)) : list live_entry :=
  omap (λ '(roomId, s),
          match instructor s with
          | Some i =>
              if isLive s && i_active i
              then Some (live_entry_of roomId s i)
              else None
          | None => None
          end) ss.

(** A registry entry as the validation of server.js:126 leaves it: the
    room id and the recorded identities are non-empty strings and every
    student record is marked active. *)
Definition session_validated (roomId : string) (s : session) : Prop :=
  roomId ≠ ""
  ∧ (∀ i, instructor s = Some i → i_id i ≠ "")
  ∧ ∀ u st, students s !! u = Some st → u ≠ "" ∧ s_active st = true.

(** The later state [s2] of a session still has the active instructor
    of the earlier state [s1], if there was one, on the same socket. *)
Definition keeps_instructor_socket (s1 s2 : session) : Prop :=
  ∀ i1, instructor s1 = Some i1 → i_active i1 = true →
    ∃ i2, instructor s2 = Some i2 ∧ i_active i2 = true
          ∧ i_socketId i2 = i_socketId i1.

(** The later state [s2] of a session that was live under an active
    instructor in the earlier state [s1] is live under an active
    instructor too, counts at least as many students, and has the start
    time that [s1] had. *)
Definition stays_live (s1 s2 : session) : Prop :=
  isLive s1 = true → instructor_active s1 = true →
  isLive s2 = true ∧ instructor_active s2 = true
  ∧ (size (students s1) ≤ size (students s2))%nat
  ∧ ∀ t, startTime s1 = Some t → startTime s2 = Some t.

(** The recipients of the events of a [join-broadcast] of [socket] for
    [roomId], in the state [w'] after the request: errors and
    [session-info] go to the requesting socket, [broadcast-started] and
    [participants-updated] to the room, [student-joined] to the socket of
    the room's active instructor. *)
Definition routed (socket roomId : string) (w' : world) (x : emit) : Prop :=
  match x.2 with
  | Error _ | SessionInfo _ _ _ _ _ => x.1 = ToSocket socket
  | BroadcastStarted _ _ | ParticipantsUpdated _ => x.1 = ToRoom roomId
  | StudentJoined _ _ _ =>
      ∃ s i, Map_get roomId (sessions w') = Some s
             ∧ instructor s = Some i ∧ i_active i = true
             ∧ x.1 = ToRoom (i_socketId i)
  end.

(** The [sessions] array of the query's response. *)
Definition live_listing (w : world) : list live_entry :=
  active_sessions (live_sessions w).2.

(** ** The CORS middleware (server.js:32-50) *)

Definition allowedOrigins : list string :=
  ["http://localhost:8080";
   "https://learn-x-website-nirv.vercel.app";
   "https://learn-x-website-nirv-m2h0r6kj9.vercel.app";
   "https://learnx-backend-h6h0.onrender.com"].

(** What the middleware reads of a request: [req.headers.origin], which
    is [undefined] when the header is absent, and [req.method]. *)
Record request : Type := Request {
  req_origin : option string;
  req_method : string
}.

(** How the middleware ends: [res.sendStatus(code)] or [next()]. *)
Inductive continuation : Type :=
  | SendStatus (code : nat)
  | CallNext.

(** The middleware on the headers of the response, a table from header
    name to value that [res.setHeader] writes into. *)
Definition cors_middleware (req : request) (headers : gmap string string)
    : gmap string string * continuation :=
  let h1 :=
    match req_origin req with
    | Some origin =>
        if bool_decide (origin ∈ allowedOrigins)
        then <["Access-Control-Allow-Origin" := origin]> headers
        else headers
    | None => headers
    end in
  let h2 :=
    <["Access-Control-Allow-Methods" := "GET,POST,PUT,DELETE,OPTIONS"]> h1 in
  let h3 :=
    <["Access-Control-Allow-Headers" := "Content-Type, Authorization"]> h2 in
  let h4 := <["Access-Control-Allow-Credentials" := "true"]> h3 in
  if bool_decide (req_method req = "OPTIONS")
  then (h4, SendStatus 200)
  else (h4, CallNext).

(** * Helper lemmas *)

(** ** The registry *)
Section JsMapFacts.
Context {V : Type}.

Lemma Map_get_set_eq k (v : V) m : Map_get k (Map_set k v m) = Some v.
Proof.
  induction m as [|[k' v'] m IH]; simpl.
  - by rewrite decide_True.
  - destruct (decide (k = k')) as [->|Hne]; simpl.
    + by rewrite decide_True.
    + by rewrite decide_False.
Qed.

Lemma Map_get_set_ne k k' (v : V) m :
  k ≠ k' → Map_get k' (Map_set k v m) = Map_get k' m.
Proof.
  intros Hne. induction m as [|[k0 v0] m IH]; simpl.
  - rewrite decide_False; [done | congruence].
  - destruct (decide (k = k0)) as [->|Hk]; simpl.
    + rewrite !decide_False; [done | congruence | congruence].
    + destruct (decide (k' = k0)); [done | apply IH].
Qed.

Lemma Map_get_set k k' (v : V) m :
  Map_get k' (Map_set k v m) = if decide (k = k') then Some v else Map_get k' m.
Proof.
  destruct (decide (k = k')) as [->|Hne].
  - apply Map_get_set_eq.
  - by apply Map_get_set_ne.
Qed.

End JsMapFacts.

(** ** Helper lemmas: the guards *)

Lemma falsy_false s : falsy s = false ↔ s ≠ "".
Proof. unfold falsy. by rewrite bool_decide_eq_false. Qed.

Lemma invalid_join_false roomId userId userType :
  invalid_join roomId userId userType = false
  ↔ roomId ≠ "" ∧ userId ≠ ""
    ∧ (userType = "instructor" ∨ userType = "student").
Proof.
  unfold invalid_join.
  rewrite !orb_false_iff, !falsy_false, negb_false_iff, bool_decide_eq_true.
  rewrite !elem_of_cons, elem_of_nil. naive_solver.
Qed.

Lemma invalid_join_true roomId userId userType :
  invalid_join roomId userId userType = true
  ↔ roomId = "" ∨ userId = ""
    ∨ (userType ≠ "instructor" ∧ userType ≠ "student").
Proof.
  unfold invalid_join, falsy.
  rewrite !orb_true_iff, negb_true_iff, !bool_decide_eq_true,
    bool_decide_eq_false.
  rewrite !elem_of_cons, elem_of_nil. naive_solver.
Qed.

Lemma instructor_conflict_true s socket :
  instructor_conflict s socket = true
  ↔ ∃ i, instructor s = Some i ∧ i_active i = true ∧ i_socketId i ≠ socket.
Proof.
  unfold instructor_conflict. destruct (instructor s) as [i|].
  - rewrite andb_true_iff, negb_true_iff, bool_decide_eq_false. naive_solver.
  - naive_solver.
Qed.

Lemma instructor_conflict_new now socket :
  instructor_conflict (new_session now) socket = false.
Proof. reflexivity. Qed.

(** ** Helper lemmas: rooms *)

Lemma elem_of_socket_join socket room rooms :
  socket ∈ room_members (socket_join socket room rooms) room.
Proof.
  unfold room_members, socket_join. rewrite lookup_insert_eq. simpl.
  set_solver.
Qed.

Lemma not_elem_of_socket_leave socket room rooms :
  socket ∉ room_members (socket_leave socket room rooms) room.
Proof.
  unfold room_members, socket_leave.
  destruct (rooms !! room) as [members|] eqn:Hroom.
  - unfold room_del. case_decide.
    + rewrite lookup_delete_eq. simpl. set_solver.
    + rewrite lookup_insert_eq. simpl. set_solver.
  - rewrite Hroom. simpl. set_solver.
Qed.

(** ** Helper lemmas: the four paths of the handler *)

Lemma get_or_create_other roomId k now ss :
  roomId ≠ k → Map_get k (get_or_create roomId now ss).2 = Map_get k ss.
Proof.
  intros Hne. unfold get_or_create.
  destruct (Map_get roomId ss); simpl; [done|].
  by apply Map_get_set_ne.
Qed.

Lemma get_or_create_fst roomId now ss :
  (get_or_create roomId now ss).1
  = default (new_session now) (Map_get roomId ss).
Proof. unfold get_or_create. by destruct (Map_get roomId ss). Qed.

Lemma join_broadcast_invalid socket roomId userId userType tCreate tNow w :
  invalid_join roomId userId userType = true →
  join_broadcast socket roomId userId userType tCreate tNow w
  = (w, [(ToSocket socket, Error "Invalid join parameters.")]).
Proof. intros H. unfold join_broadcast. by rewrite H. Qed.

Lemma join_broadcast_conflict socket roomId userId tCreate tNow w :
  roomId ≠ "" → userId ≠ "" →
  instructor_conflict (get_or_create roomId tCreate (sessions w)).1 socket
  = true →
  join_broadcast socket roomId userId "instructor" tCreate tNow w
  = ({| sessions := (get_or_create roomId tCreate (sessions w)).2;
        rooms := socket_leave socket roomId
                   (socket_join socket roomId (rooms w)) |},
     [(ToSocket socket,
       Error "Another instructor is already active in this session.")]).
Proof.
  intros Hroom Huser Hconf. unfold join_broadcast.
  assert (invalid_join roomId userId "instructor" = false) as ->
    by (apply invalid_join_false; auto).
  destruct (get_or_create roomId tCreate (sessions w)) as [s ss] eqn:Hgc.
  simpl in *. by rewrite Hconf.
Qed.

Lemma join_broadcast_instructor socket roomId userId tCreate tNow w :
  roomId ≠ "" → userId ≠ "" →
  instructor_conflict (get_or_create roomId tCreate (sessions w)).1 socket
  = false →
  let s' := admit_instructor socket userId tNow
              (get_or_create roomId tCreate (sessions w)).1 in
  join_broadcast socket roomId userId "instructor" tCreate tNow w
  = ({| sessions := Map_set roomId s'
                      (get_or_create roomId tCreate (sessions w)).2;
        rooms := socket_join socket roomId (rooms w) |},
     [(ToRoom roomId, BroadcastStarted userId (startTime s'));
      (ToRoom roomId, ParticipantsUpdated (participants s'))]).
Proof.
  intros Hroom Huser Hconf. unfold join_broadcast.
  assert (invalid_join roomId userId "instructor" = false) as ->
    by (apply invalid_join_false; auto).
  destruct (get_or_create roomId tCreate (sessions w)) as [s ss] eqn:Hgc.
  simpl in *. by rewrite Hconf.
Qed.

Lemma join_broadcast_student socket roomId userId tCreate tNow w :
  roomId ≠ "" → userId ≠ "" →
  let s' := admit_student socket userId tNow
              (get_or_create roomId tCreate (sessions w)).1 in
  join_broadcast socket roomId userId "student" tCreate tNow w
  = ({| sessions := Map_set roomId s'
                      (get_or_create roomId tCreate (sessions w)).2;
        rooms := socket_join socket roomId (rooms w) |},
     (student_joined roomId userId s'
      ++ [(ToSocket socket,
           SessionInfo (isLive s') (startTime s') (messages s')
             (size (students s')) (instructor_active s'));
          (ToRoom roomId, ParticipantsUpdated (participants s'))])%list).
Proof.
  intros Hroom Huser. unfold join_broadcast.
  assert (invalid_join roomId userId "student" = false) as ->
    by (apply invalid_join_false; auto).
  by destruct (get_or_create roomId tCreate (sessions w)) as [s ss] eqn:Hgc.
Qed.

Lemma join_broadcast_session_step socket roomId userId userType tCreate tNow
    w k :
  session_step socket (Map_get k (sessions w))
    (Map_get k
       (sessions (join_broadcast socket roomId userId userType tCreate tNow w).1)).
Proof.
  destruct (invalid_join roomId userId userType) eqn:Hinv.
  { rewrite join_broadcast_invalid by done. constructor. }
  apply invalid_join_false in Hinv as (Hroom & Huser & [-> | ->]).
  - destruct (instructor_conflict
                (get_or_create roomId tCreate (sessions w)).1 socket)
      eqn:Hconf.
    + rewrite join_broadcast_conflict by done. simpl.
      revert Hconf. unfold get_or_create.
      destruct (Map_get roomId (sessions w)) eqn:Hget; simpl.
      * intros _. constructor.
      * by rewrite instructor_conflict_new.
    + rewrite join_broadcast_instructor by done. simpl.
      rewrite Map_get_set. case_decide as Hk.
      * subst k. rewrite get_or_create_fst in Hconf |- *. by constructor.
      * rewrite get_or_create_other by done. constructor.
  - rewrite join_broadcast_student by done. simpl.
    rewrite Map_get_set. case_decide as Hk.
    + subst k. rewrite get_or_create_fst. constructor.
    + rewrite get_or_create_other by done. constructor.
Qed.

Lemma handle_session_step socket e w k :
  session_step socket (Map_get k (sessions w))
    (Map_get k (sessions (handle socket e w).1)).
Proof.
  destruct e as [|roomId userId userType tCreate tNow|]; simpl.
  - constructor.
  - apply join_broadcast_session_step.
  - constructor.
Qed.

Lemma run_cons socket e evs w :
  run ((socket, e) :: evs) w
  = ((run evs (handle socket e w).1).1,
     ((handle socket e w).2 ++ (run evs (handle socket e w).1).2)%list).
Proof.
  simpl. destruct (handle socket e w) as [w1 out1]. simpl.
  by destruct (run evs w1) as [w2 out2].
Qed.

(** A property of sessions that holds of the fresh session and that both
    admissions preserve holds of every session after any run. *)
Section Invariant.
Variable P : session → Prop.
Hypothesis P_new : ∀ now, P (new_session now).
Hypothesis P_instructor : ∀ socket userId now s,
  P s → instructor_conflict s socket = false →
  P (admit_instructor socket userId now s).
Hypothesis P_student : ∀ socket userId now s,
  P s → P (admit_student socket userId now s).

Lemma session_step_preserves socket o o' :
  session_step socket o o' →
  (∀ s, o = Some s → P s) → ∀ s', o' = Some s' → P s'.
Proof.
  intros Hstep Ho s'.
  destruct Hstep as [o|o tCreate userId tNow Hconf|o tCreate userId tNow].
  - apply Ho.
  - intros [= <-]. apply P_instructor; [|done].
    destruct o; simpl; auto.
  - intros [= <-]. apply P_student. destruct o; simpl; auto.
Qed.

Lemma run_preserves evs w :
  (∀ k s, Map_get k (sessions w) = Some s → P s) →
  ∀ k s, Map_get k (sessions (run evs w).1) = Some s → P s.
Proof.
  revert w. induction evs as [|[socket e] evs IH]; intros w Hw k s.
  - simpl. apply Hw.
  - rewrite run_cons. simpl. apply IH. clear k s. intros k s.
    eapply session_step_preserves; [apply handle_session_step|].
    intros s0. apply Hw.
Qed.

Lemma reachable_sessions evs k s :
  Map_get k (sessions (run evs initial).1) = Some s → P s.
Proof. apply run_preserves. intros k' s'. by simpl. Qed.
End Invariant.

Lemma reachable_session_inv evs k s :
  Map_get k (sessions (run evs initial).1) = Some s → session_inv s.
Proof.
  apply (reachable_sessions session_inv); unfold session_inv; simpl.
  - done.
  - intros _ _ now s0 _ _. by destruct (startTime s0); eauto.
  - done.
Qed.

(** * The claims *)

(** ** C1: a second instructor on another connection is rejected *)

(** C1.  A well-formed instructor [join-broadcast] on a room whose session
    records an active instructor on a different socket is rejected: the
    only emission is the error "Another instructor is already active in
    this session." to the requesting socket (so nothing goes to the room),
    the registry, and with it every field of the session, is unchanged,
    and the requester is not a member of the room afterwards. *)
Theorem instructor_conflict_rejected
    (w : world) (socket roomId userId : string) (tCreate tNow : Date)
    (s : session) (i : instructor_t) :
  roomId ≠ "" → userId ≠ "" →
  Map_get roomId (sessions w) = Some s →
  instructor s = Some i → i_active i = true → i_socketId i ≠ socket →
  ∃ w',
    join_broadcast socket roomId userId "instructor" tCreate tNow w
    = (w', [(ToSocket socket,
             Error "Another instructor is already active in this session.")])
    ∧ sessions w' = sessions w
    ∧ Map_get roomId (sessions w') = Some s
    ∧ socket ∉ room_members (rooms w') roomId.
Proof.
  intros Hroom Huser Hget Hi Hact Hsock.
  assert (instructor_conflict
            (get_or_create roomId tCreate (sessions w)).1 socket = true)
    as Hconf.
  { rewrite get_or_create_fst, Hget. simpl.
    apply instructor_conflict_true. eauto. }
  eexists. split; [by apply join_broadcast_conflict|]. simpl.
  unfold get_or_create. rewrite Hget. simpl.
  split_and!; [done | done | apply not_elem_of_socket_leave].
Qed.

Lemma instructor_conflict_rejected_witness :
  ∃ w',
    join_broadcast "sC" "r1" "C" "instructor" 25%Z 30%Z classroom
    = (w', [(ToSocket "sC",
             Error "Another instructor is already active in this session.")])
    ∧ sessions w' = sessions classroom
    ∧ Map_get "r1" (sessions w')
      = Some {| instructor := Some (Instructor "A" "sA" true);
                students := {[ "B" := Student "sB" true 20%Z ]};
                messages := []; isLive := true; startTime := Some 10%Z;
                createdAt := 5%Z |}
    ∧ "sC" ∉ room_members (rooms w') "r1".
Proof.
  apply (instructor_conflict_rejected classroom "sC" "r1" "C" 25%Z 30%Z _
           (Instructor "A" "sA" true)).
  - done.
  - done.
  - vm_compute. reflexivity.
  - reflexivity.
  - reflexivity.
  - done.
Defined.

(** ** C2: the loss of the instructor's connection *)

Lemma not_elem_of_socket_leave_all socket room rooms :
  socket ∉ room_members (socket_leave_all socket rooms) room.
Proof.
  unfold room_members, socket_leave_all. rewrite lookup_omap.
  destruct (rooms !! room) as [members|]; simpl; [|set_solver].
  unfold room_del. case_decide; simpl; set_solver.
Qed.

(** C2, as the code has it.  The program has no listener for the loss of
    a connection.  When the socket of a session's active instructor
    disconnects, the registry is left as it is, so the session keeps its
    instructor record with [active] true and keeps [isLive] and
    [startTime], and nothing is emitted; the socket is only taken out of
    its rooms by socket.io. *)
Theorem disconnect_keeps_session
    (w : world) (socket roomId : string) (s : session) (i : instructor_t) :
  Map_get roomId (sessions w) = Some s →
  instructor s = Some i → i_active i = true → i_socketId i = socket →
  ∃ w',
    handle socket Disconnect w = (w', [])
    ∧ sessions w' = sessions w
    ∧ Map_get roomId (sessions w') = Some s
    ∧ instructor_active s = true
    ∧ ∀ room, socket ∉ room_members (rooms w') room.
Proof.
  intros Hget Hi Hact Hsock. eexists. split; [reflexivity|]. simpl.
  split_and!; [done | done | | intros room; apply not_elem_of_socket_leave_all].
  unfold instructor_active. by rewrite Hi.
Qed.

Lemma disconnect_keeps_session_witness :
  ∃ w',
    handle "sA" Disconnect classroom = (w', [])
    ∧ sessions w' = sessions classroom
    ∧ Map_get "r1" (sessions w')
      = Some {| instructor := Some (Instructor "A" "sA" true);
                students := {[ "B" := Student "sB" true 20%Z ]};
                messages := []; isLive := true; startTime := Some 10%Z;
                createdAt := 5%Z |}
    ∧ instructor_active
        {| instructor := Some (Instructor "A" "sA" true);
           students := {[ "B" := Student "sB" true 20%Z ]};
           messages := []; isLive := true; startTime := Some 10%Z;
           createdAt := 5%Z |} = true
    ∧ ∀ room, "sA" ∉ room_members (rooms w') room.
Proof.
  apply (disconnect_keeps_session classroom "sA" "r1" _
           (Instructor "A" "sA" true)).
  - vm_compute. reflexivity.
  - reflexivity.
  - reflexivity.
  - reflexivity.
Defined.

(** C2, as the claim words it, fails: instructor [A] is active in [r1] on
    socket [sA] with student [B] present, and after [sA] disconnects it
    is not the case that the instructor record is inactive, [isLive] is
    false, [startTime] is kept and the room is sent
    [participants-updated] with count 1. *)
Lemma disconnect_leave_counterexample :
  Map_get "r1" (sessions classroom) ≫= instructor
  = Some (Instructor "A" "sA" true)
  ∧ ¬ (∃ w' out s',
         handle "sA" Disconnect classroom = (w', out)
         ∧ Map_get "r1" (sessions w') = Some s'
         ∧ instructor_active s' = false
         ∧ isLive s' = false
         ∧ startTime s' = Some 10%Z
         ∧ (ToRoom "r1", ParticipantsUpdated 1) ∈ out).
Proof.
  split; [vm_compute; reflexivity|].
  intros (w' & out & s' & Hh & Hget & Hact & _).
  injection Hh as <- <-. vm_compute in Hget. injection Hget as <-.
  discriminate Hact.
Qed.

(** ** C3: [startTime] is set once *)

Lemma session_step_startTime socket o o' t :
  session_step socket o o' →
  o ≫= startTime = Some t → o' ≫= startTime = Some t.
Proof.
  intros Hstep.
  destruct Hstep as [o|o tCreate userId tNow Hconf|o tCreate userId tNow];
    [done|..]; destruct o as [s|]; simpl; try done.
  by intros ->.
Qed.

Lemma run_startTime evs w roomId t :
  startTime_of roomId w = Some t →
  startTime_of roomId (run evs w).1 = Some t.
Proof.
  revert w. induction evs as [|[socket e] evs IH]; intros w Hw.
  - done.
  - rewrite run_cons. simpl. apply IH.
    by eapply session_step_startTime; [apply handle_session_step|].
Qed.

(** C3.  An admitted instructor [join-broadcast] leaves the room's
    session with [startTime] equal to the time of the admission when the
    session had none, and to the one it had otherwise; and a [startTime]
    that a session has is still the session's [startTime] after any
    further sequence of events of any sockets. *)
Theorem startTime_set_once :
  (∀ (w : world) (socket roomId userId : string) (tCreate tNow : Date),
     roomId ≠ "" → userId ≠ "" →
     join_rejected socket roomId userId "instructor" w = false →
     startTime_of roomId
       (join_broadcast socket roomId userId "instructor" tCreate tNow w).1
     = Some (default tNow (startTime_of roomId w)))
  ∧ (∀ (evs : list (string * event)) (w : world) (roomId : string)
       (t : Date),
       startTime_of roomId w = Some t →
       startTime_of roomId (run evs w).1 = Some t).
Proof.
  split; [|apply run_startTime].
  intros w socket roomId userId tCreate tNow Hroom Huser Hrej.
  unfold join_rejected in Hrej.
  apply orb_false_iff in Hrej as [_ Hrej].
  rewrite bool_decide_eq_true_2 in Hrej by done. simpl in Hrej.
  pose proof (get_or_create_fst roomId tCreate (sessions w)) as Hfst.
  unfold startTime_of.
  rewrite join_broadcast_instructor; [|done|done|].
  - simpl. rewrite Map_get_set_eq, Hfst. simpl.
    destruct (Map_get roomId (sessions w)) as [s|]; simpl; [|done].
    by destruct (startTime s).
  - rewrite Hfst. by destruct (Map_get roomId (sessions w)).
Qed.

Lemma startTime_set_once_witness :
  (startTime_of "r1" initial = None
   ∧ startTime_of "r1"
       (join_broadcast "sA" "r1" "A" "instructor" 5%Z 10%Z initial).1
     = Some 10%Z)
  ∧ (startTime_of "r1" classroom = Some 10%Z
     ∧ startTime_of "r1"
         (run [("sA", JoinBroadcast "r1" "A" "instructor" 50%Z 60%Z);
               ("sA", Disconnect);
               ("sD", JoinBroadcast "r1" "D" "student" 70%Z 80%Z)]
            classroom).1
       = Some 10%Z).
Proof.
  split; split.
  - reflexivity.
  - apply (proj1 startTime_set_once initial "sA" "r1" "A" 5%Z 10%Z); done.
  - vm_compute. reflexivity.
  - apply (proj2 startTime_set_once). vm_compute. reflexivity.
Defined.

(** ** C4: [isLive] and the instructor record *)

(** C4.  After any sequence of events from the initial state, every
    registered session has [isLive] true exactly when its instructor
    record is present and active. *)
Theorem isLive_iff_instructor_active
    (evs : list (string * event)) (roomId : string) (s : session) :
  Map_get roomId (sessions (run evs initial).1) = Some s →
  isLive s = true ↔ ∃ i, instructor s = Some i ∧ i_active i = true.
Proof.
  intros Hget. apply reachable_session_inv in Hget.
  unfold session_inv in Hget. destruct (instructor s) as [i|].
  - destruct Hget as (Hact & Hlive & _). split; eauto.
  - destruct Hget as (Hlive & _). rewrite Hlive. split; [done|].
    by intros (i & Hi & _).
Qed.

Lemma isLive_iff_instructor_active_witness :
  ∃ s, Map_get "r1" (sessions (run scenario initial).1) = Some s
       ∧ (isLive s = true ↔ ∃ i, instructor s = Some i ∧ i_active i = true).
Proof.
  eexists. split; [vm_compute; reflexivity|].
  apply (isLive_iff_instructor_active scenario "r1").
  vm_compute. reflexivity.
Defined.

(** ** C5: the participant count after an admission *)

(** C5.  After an admitted [join-broadcast] the last emission is
    [participants-updated] to the room, which the requester has joined,
    with [count] the size of [students] plus one when the instructor
    record is active, read on the session after the admission; it is the
    only [participants-updated] of the request.  A rejected request emits
    no [participants-updated]. *)
Theorem participants_updated_after_admission
    (w : world) (socket roomId userId userType : string)
    (tCreate tNow : Date) :
  ∃ w' out,
    join_broadcast socket roomId userId userType tCreate tNow w = (w', out)
    ∧ if join_rejected socket roomId userId userType w then
        filter is_participants_updated out = []
      else
        ∃ s',
          Map_get roomId (sessions w') = Some s'
          ∧ last out
            = Some (ToRoom roomId,
                    ParticipantsUpdated
                      (size (students s')
                       + (if instructor_active s' then 1 else 0)))
          ∧ length (filter is_participants_updated out) = 1
          ∧ socket ∈ room_members (rooms w') roomId.
Proof.
  exists (join_broadcast socket roomId userId userType tCreate tNow w).1,
    (join_broadcast socket roomId userId userType tCreate tNow w).2.
  split; [by destruct (join_broadcast _ _ _ _ _ _ _)|].
  unfold join_rejected.
  destruct (invalid_join roomId userId userType) eqn:Hinv; simpl.
  { by rewrite join_broadcast_invalid. }
  apply invalid_join_false in Hinv as (Hroom & Huser & [-> | ->]).
  - rewrite bool_decide_eq_true_2 by done. simpl.
    pose proof (get_or_create_fst roomId tCreate (sessions w)) as Hfst.
    destruct (Map_get roomId (sessions w)) as [s|] eqn:Hget; simpl in Hfst.
    + destruct (instructor_conflict s socket) eqn:Hconf.
      * rewrite join_broadcast_conflict by (by rewrite ?Hfst). done.
      * rewrite join_broadcast_instructor by (by rewrite ?Hfst). simpl.
        eexists. split_and!;
          [apply Map_get_set_eq | done | done | apply elem_of_socket_join].
    + rewrite join_broadcast_instructor by (by rewrite ?Hfst). simpl.
      eexists. split_and!;
        [apply Map_get_set_eq | done | done | apply elem_of_socket_join].
  - rewrite bool_decide_eq_false_2 by done. simpl.
    rewrite join_broadcast_student by done. simpl.
    eexists. split_and!; [apply Map_get_set_eq | | | apply elem_of_socket_join].
    + by rewrite last_app.
    + unfold student_joined.
      destruct (instructor _) as [i|]; [destruct (i_active i)|]; done.
Qed.

(** ** C6: invalid parameters *)

(** C6, as the code has it.  A [join-broadcast] with an empty [roomId],
    an empty [userId] or a [userType] other than "instructor" and
    "student" emits one event, the error "Invalid join parameters." to the
    requesting socket, and leaves the whole state as it was: no session is
    touched or created and no room is joined. *)
Theorem invalid_parameters_rejected
    (w : world) (socket roomId userId userType : string)
    (tCreate tNow : Date) :
  roomId = "" ∨ userId = ""
  ∨ (userType ≠ "instructor" ∧ userType ≠ "student") →
  join_broadcast socket roomId userId userType tCreate tNow w
  = (w, [(ToSocket socket, Error "Invalid join parameters.")]).
Proof.
  intros H. apply join_broadcast_invalid. by apply invalid_join_true.
Qed.

Lemma invalid_parameters_rejected_witness :
  join_broadcast "s1" "r9" "" "student" 1%Z 2%Z initial
  = (initial, [(ToSocket "s1", Error "Invalid join parameters.")])
  ∧ Map_get "r9" (sessions initial) = None.
Proof.
  split; [|reflexivity].
  apply (invalid_parameters_rejected initial "s1" "r9" "" "student").
  right. left. reflexivity.
Defined.

(** C6, as the claim words it, fails on the text of the error: a join
    with an empty identity is not answered with "Invalid parameters.". *)
Lemma invalid_parameters_text_counterexample :
  ¬ (join_broadcast "s1" "r9" "" "student" 1%Z 2%Z initial
     = (initial, [(ToSocket "s1", Error "Invalid parameters.")])).
Proof. vm_compute. discriminate. Qed.

(** ** C7: student admission and its frame *)

(** C7.  A well-formed student [join-broadcast] is admitted on any
    session, registered or freshly created: no error is emitted, the
    requester is in the room, the [students] entry of the identity is
    inserted or replaced by [{socketId, active: true, joinedAt: now}],
    and [instructor], [isLive] and [startTime] are those of the session
    before the admission.  When the identity was already present the size
    of [students] does not change. *)
Theorem student_admission_frame
    (w : world) (socket roomId userId : string) (tCreate tNow : Date) :
  roomId ≠ "" → userId ≠ "" →
  ∃ w' out s',
    join_broadcast socket roomId userId "student" tCreate tNow w = (w', out)
    ∧ (∀ target text, (target, Error text) ∉ out)
    ∧ socket ∈ room_members (rooms w') roomId
    ∧ Map_get roomId (sessions w') = Some s'
    ∧ let s := default (new_session tCreate)
                 (Map_get roomId (sessions w)) in
        students s'
        = <[userId := {| s_socketId := socket; s_active := true;
                         s_joinedAt := tNow |}]> (students s)
        ∧ instructor s' = instructor s
        ∧ isLive s' = isLive s
        ∧ startTime s' = startTime s
        ∧ messages s' = messages s
        ∧ createdAt s' = createdAt s
        ∧ (is_Some (students s !! userId) →
           size (students s') = size (students s)).
Proof.
  intros Hroom Huser. do 3 eexists.
  split; [by apply join_broadcast_student|]. simpl.
  split; [|split; [apply elem_of_socket_join|split; [apply Map_get_set_eq|]]].
  - intros target text. unfold student_joined.
    destruct (instructor _) as [i|]; [destruct (i_active i)|];
      simpl; set_solver.
  - rewrite get_or_create_fst. simpl. split_and!; try done.
    intros Hpresent. by apply map_size_insert_Some.
Qed.

Lemma student_admission_frame_witness :
  ∃ w' out s',
    join_broadcast "sB2" "r1" "B" "student" 35%Z 40%Z classroom = (w', out)
    ∧ (∀ target text, (target, Error text) ∉ out)
    ∧ "sB2" ∈ room_members (rooms w') "r1"
    ∧ Map_get "r1" (sessions w') = Some s'
    ∧ let s := default (new_session 35%Z)
                 (Map_get "r1" (sessions classroom)) in
        students s' = <[ "B" := Student "sB2" true 40%Z ]> (students s)
        ∧ instructor s' = instructor s
        ∧ isLive s' = isLive s
        ∧ startTime s' = startTime s
        ∧ messages s' = messages s
        ∧ createdAt s' = createdAt s
        ∧ (is_Some (students s !! "B") →
           size (students s') = size (students s)).
Proof.
  apply (student_admission_frame classroom "sB2" "r1" "B" 35%Z 40%Z);
    done.
Defined.

(** ** C8: the live-sessions query *)

Lemma fold_left_push_if_live ss acc :
  fold_left push_if_live ss acc
  = (acc ++ fold_left push_if_live ss [])%list.
Proof.
  revert acc. induction ss as [|[k s] ss IH]; intros acc; cbn [fold_left].
  - by rewrite app_nil_r.
  - rewrite (IH (push_if_live acc (k, s))), (IH (push_if_live [] (k, s))).
    rewrite app_assoc. f_equal. unfold push_if_live.
    destruct (instructor s) as [i|]; [|by rewrite app_nil_r].
    destruct (isLive s && i_active i); [done | by rewrite app_nil_r].
Qed.

Lemma elem_of_push_if_live e k s :
  e ∈ push_if_live [] (k, s)
  ↔ ∃ i, instructor s = Some i ∧ isLive s = true ∧ i_active i = true
         ∧ e = live_entry_of k s i.
Proof.
  unfold push_if_live, live_entry_of.
  destruct (instructor s) as [i|]; [|set_solver].
  destruct (isLive s) eqn:Hlive, (i_active i) eqn:Hact; simpl.
  all: rewrite ?list_elem_of_singleton, ?elem_of_nil.
  all: split; [intros H | intros (i' & [= <-] & Hl & Ha & He)].
  all: try done; try congruence.
  exists i. by rewrite Hact.
Qed.

(** C8.  The query answers [success: true] with one entry for each
    registered session that has [isLive] true and an active instructor
    record, in the order of the registry, and no other entry; the entry
    carries the room id, the session's [startTime], [students.size + 1]
    as [participants] and the instructor's identity; and the state after
    the query is the state before it. *)
Theorem live_sessions_query (w : world) :
  ∃ resp,
    live_sessions w = (w, resp)
    ∧ success resp = true
    ∧ active_sessions resp = listActive (sessions w)
    ∧ ∀ e, e ∈ active_sessions resp
           ↔ ∃ roomId s i,
               (roomId, s) ∈ sessions w
               ∧ isLive s = true
               ∧ instructor s = Some i ∧ i_active i = true
               ∧ e = live_entry_of roomId s i.
Proof.
  eexists. split; [reflexivity|]. split; [reflexivity|]. simpl. split.
  { induction (sessions w) as [|[k s] ss IH]; cbn [fold_left]; [done|].
    rewrite fold_left_push_if_live, IH. unfold listActive. simpl.
    unfold live_entry_of.
    destruct (instructor s) as [i|]; [|done].
    destruct (isLive s), (i_active i); done. }
  induction (sessions w) as [|[k s] ss IH]; intros e; cbn [fold_left].
  - split; [by intros ?%elem_of_nil|].
    by intros (? & ? & ? & ?%elem_of_nil & _).
  - rewrite fold_left_push_if_live, elem_of_app, IH, elem_of_push_if_live.
    split.
    + intros [(i & Hi & Hlive & Hact & ->)
             | (roomId & s' & i & Hin & H)].
      * exists k, s, i. split_and!; try done. left.
      * exists roomId, s', i. split; [by right | done].
    + intros (roomId & s' & i & Hin & Hlive & Hi & Hact & ->).
      apply elem_of_cons in Hin as [[= -> ->] | Hin].
      * left. eauto.
      * right. exists roomId, s', i. done.
Qed.

(** The query in the scenario of the specification, with [A] live in
    [r1] and [B] present. *)
Example live_sessions_classroom :
  (live_sessions classroom).2
  = {| success := true;
       active_sessions :=
         [{| le_id := "r1"; le_startTime := Some 10%Z; le_participants := 2;
             le_instructorId := "A" |}] |}.
Proof. vm_compute. reflexivity. Qed.

(** ** C9: a student joins a room that has no instructor *)

(** C9.  In a state reached from the initial one, a well-formed student
    [join-broadcast] to a room that is unknown or whose session has no
    active instructor is admitted.  With [before] the [students] of the
    room's registered session, empty when the room is unknown, and
    [after] that map with the requester's entry inserted or replaced:
    the emissions are exactly [session-info] to the requesting socket,
    with [isLive] false, [startTime] null, no messages,
    [instructorActive] false and [totalStudents] the size of [after],
    and then [participants-updated] to the room with that size as
    [count]; no [student-joined] is emitted.  The size of [after] is the
    size of [before] when the identity was present and one more
    otherwise.  Afterwards the room is registered with [after] as its
    [students], no instructor, [isLive] false, [startTime] null and the
    [createdAt] it had, or the time of the request when it was unknown;
    the other rooms are as they were and the requester has joined the
    room. *)
Theorem student_join_without_instructor
    (evs : list (string * event)) (socket roomId userId : string)
    (tCreate tNow : Date) :
  roomId ≠ "" → userId ≠ "" →
  (∀ s, Map_get roomId (sessions (run evs initial).1) = Some s →
        instructor_active s = false) →
  let w := (run evs initial).1 in
  let before := default ∅ (students <$> Map_get roomId (sessions w)) in
  let after :=
    <[userId := {| s_socketId := socket; s_active := true;
                   s_joinedAt := tNow |}]> before in
  ∃ w' s',
    join_broadcast socket roomId userId "student" tCreate tNow w
    = (w', [(ToSocket socket, SessionInfo false None [] (size after) false);
            (ToRoom roomId, ParticipantsUpdated (size after))])
    ∧ size after = match before !! userId with
                   | Some _ => size before
                   | None => S (size before)
                   end
    ∧ Map_get roomId (sessions w') = Some s'
    ∧ students s' = after
    ∧ instructor s' = None
    ∧ isLive s' = false
    ∧ startTime s' = None
    ∧ messages s' = []
    ∧ createdAt s'
      = default tCreate (createdAt <$> Map_get roomId (sessions w))
    ∧ (∀ k, k ≠ roomId →
          Map_get k (sessions w') = Map_get k (sessions w))
    ∧ room_members (rooms w') roomId
      = {[socket]} ∪ room_members (rooms w) roomId.
Proof.
  intros Hroom Huser Hnone w before after.
  pose proof (get_or_create_fst roomId tCreate (sessions w)) as Hfst.
  set (s0 := (get_or_create roomId tCreate (sessions w)).1) in *.
  assert (instructor s0 = None ∧ isLive s0 = false ∧ startTime s0 = None
          ∧ messages s0 = [] ∧ students s0 = before
          ∧ createdAt s0
            = default tCreate (createdAt <$> Map_get roomId (sessions w)))
    as (Hi & Hlive & Hstart & Hmsgs & Hstud & Hcreated).
  { rewrite Hfst. subst before.
    destruct (Map_get roomId (sessions w)) as [s|] eqn:Hget; simpl; [|done].
    pose proof (reachable_session_inv _ _ _ Hget) as Hinv.
    pose proof (reachable_sessions (λ s, messages s = [])
                  ltac:(done) ltac:(done) ltac:(done) _ _ _ Hget) as Hm.
    specialize (Hnone s Hget).
    unfold session_inv, instructor_active in *.
    destruct (instructor s) as [i|]; [|naive_solver].
    destruct Hinv as [Hact _]. congruence. }
  exists (join_broadcast socket roomId userId "student" tCreate tNow w).1,
    (admit_student socket userId tNow s0).
  rewrite join_broadcast_student by done. fold s0. simpl.
  unfold student_joined, participants, instructor_active. simpl.
  rewrite Hi, Hlive, Hstart, Hmsgs, Hstud. simpl. rewrite Nat.add_0_r.
  fold after.
  split_and!; try done.
  - subst after. rewrite map_size_insert. by destruct (before !! userId).
  - apply Map_get_set_eq.
  - intros k Hk. rewrite Map_get_set_ne by done.
    by apply get_or_create_other.
  - unfold room_members, socket_join. by rewrite lookup_insert_eq.
Qed.

Lemma student_join_without_instructor_witness :
  ∃ w' s',
    join_broadcast "sE" "r2" "E" "student" 25%Z 30%Z
      (run [("sB", JoinBroadcast "r2" "B" "student" 15%Z 20%Z)] initial).1
    = (w', [(ToSocket "sE", SessionInfo false None [] 2 false);
            (ToRoom "r2", ParticipantsUpdated 2)])
    ∧ 2 = 2
    ∧ Map_get "r2" (sessions w') = Some s'
    ∧ students s'
      = <[ "E" := Student "sE" true 30%Z ]>
          {[ "B" := Student "sB" true 20%Z ]}
    ∧ instructor s' = None
    ∧ isLive s' = false
    ∧ startTime s' = None
    ∧ messages s' = []
    ∧ createdAt s' = 15%Z
    ∧ (∀ k, k ≠ "r2" →
          Map_get k (sessions w')
          = Map_get k
              (sessions
                 (run [("sB", JoinBroadcast "r2" "B" "student" 15%Z 20%Z)]
                    initial).1))
    ∧ room_members (rooms w') "r2"
      = {[ "sE" ]}
        ∪ room_members
            (rooms
               (run [("sB", JoinBroadcast "r2" "B" "student" 15%Z 20%Z)]
                  initial).1) "r2".
Proof.
  apply (student_join_without_instructor
           [("sB", JoinBroadcast "r2" "B" "student" 15%Z 20%Z)]
           "sE" "r2" "E" 25%Z 30%Z).
  - done.
  - done.
  - intros s Hs. vm_compute in Hs. injection Hs as <-. reflexivity.
Defined.

(** ** C10: the conflict test compares sockets, not identities *)

(** C10.  On a session with an active instructor record, a well-formed
    instructor [join-broadcast] of any identity is admitted when it comes
    from the socket of the record, and the record then carries the
    requester's identity; it is rejected when it comes from another
    socket, whatever the identity.  In particular a different identity on
    the same socket replaces the recorded identity. *)
Theorem instructor_takeover_by_socket
    (w : world) (socket roomId userId : string) (tCreate tNow : Date)
    (s : session) (i : instructor_t) :
  roomId ≠ "" → userId ≠ "" →
  Map_get roomId (sessions w) = Some s →
  instructor s = Some i → i_active i = true →
  (i_socketId i = socket →
   ∃ w' s',
     join_broadcast socket roomId userId "instructor" tCreate tNow w
     = (w', [(ToRoom roomId, BroadcastStarted userId (startTime s'));
             (ToRoom roomId, ParticipantsUpdated (size (students s') + 1))])
     ∧ Map_get roomId (sessions w') = Some s'
     ∧ instructor s'
       = Some {| i_id := userId; i_socketId := socket; i_active := true |}
     ∧ socket ∈ room_members (rooms w') roomId)
  ∧ (i_socketId i ≠ socket →
     ∃ w',
       join_broadcast socket roomId userId "instructor" tCreate tNow w
       = (w', [(ToSocket socket,
                Error "Another instructor is already active in this session.")])
       ∧ Map_get roomId (sessions w') = Some s).
Proof.
  intros Hroom Huser Hget Hi Hact.
  pose proof (get_or_create_fst roomId tCreate (sessions w)) as Hfst.
  rewrite Hget in Hfst. simpl in Hfst.
  split; intros Hsock.
  - assert (instructor_conflict
              (get_or_create roomId tCreate (sessions w)).1 socket = false)
      as Hconf.
    { rewrite Hfst. unfold instructor_conflict. rewrite Hi, Hact. simpl.
      by rewrite bool_decide_eq_true_2. }
    exists (join_broadcast socket roomId userId "instructor" tCreate tNow w).1,
      (admit_instructor socket userId tNow s).
    rewrite join_broadcast_instructor by done. rewrite Hfst. simpl.
    split_and!.
    + done.
    + apply Map_get_set_eq.
    + done.
    + apply elem_of_socket_join.
  - assert (instructor_conflict
              (get_or_create roomId tCreate (sessions w)).1 socket = true)
      as Hconf.
    { rewrite Hfst. apply instructor_conflict_true. eauto. }
    eexists. split; [by apply join_broadcast_conflict|]. simpl.
    unfold get_or_create. by rewrite Hget.
Qed.

Lemma instructor_takeover_by_socket_witness :
  (∃ w' s',
     join_broadcast "sA" "r1" "Z" "instructor" 25%Z 30%Z classroom
     = (w', [(ToRoom "r1", BroadcastStarted "Z" (startTime s'));
             (ToRoom "r1", ParticipantsUpdated (size (students s') + 1))])
     ∧ Map_get "r1" (sessions w') = Some s'
     ∧ instructor s' = Some (Instructor "Z" "sA" true)
     ∧ "sA" ∈ room_members (rooms w') "r1")
  ∧ Map_get "r1" (sessions classroom) ≫= instructor
    = Some (Instructor "A" "sA" true).
Proof.
  split; [|vm_compute; reflexivity].
  refine (proj1 (instructor_takeover_by_socket classroom "sA" "r1" "Z"
                   25%Z 30%Z _ (Instructor "A" "sA" true) _ _ _ _ _) _).
  - done.
  - done.
  - vm_compute. reflexivity.
  - reflexivity.
  - reflexivity.
  - reflexivity.
Defined.

(** * Further properties of the coordinator *)

(** ** Helper lemmas: keys of the registry *)
Section JsMapKeys.
Context {V : Type}.

Lemma Map_get_None_keys k (m : list (string * V)) :
  Map_get k m = None ↔ k ∉ m.*1.
Proof.
  induction m as [|[k' v'] m IH]; csimpl.
  - split; [intros _; apply not_elem_of_nil | done].
  - rewrite not_elem_of_cons. case_decide; naive_solver.
Qed.

Lemma Map_get_Some_elem k (v : V) m : Map_get k m = Some v → (k, v) ∈ m.
Proof.
  induction m as [|[k' v'] m IH]; simpl; [done|].
  destruct (decide (k = k')) as [->|Hne].
  - intros [= ->]. left.
  - intros H. right. by apply IH.
Qed.

(** [set] keeps the order of the keys: a present key stays where it is,
    an absent one goes last. *)
Lemma Map_set_keys k (v : V) m :
  (Map_set k v m).*1
  = match Map_get k m with
    | Some _ => m.*1
    | None => (m.*1 ++ [k])%list
    end.
Proof.
  induction m as [|[k' v'] m IH]; csimpl; [done|].
  destruct (decide (k = k')) as [->|Hne]; csimpl; [done|].
  rewrite IH. by destruct (Map_get k m).
Qed.

Lemma Map_set_keys_prefix k (v : V) m : m.*1 `prefix_of` (Map_set k v m).*1.
Proof.
  rewrite Map_set_keys. destruct (Map_get k m); [done|].
  by apply prefix_app_r.
Qed.

Lemma Map_set_keys_NoDup k (v : V) m : NoDup m.*1 → NoDup (Map_set k v m).*1.
Proof.
  intros Hnd. rewrite Map_set_keys.
  destruct (Map_get k m) eqn:Hget; [done|].
  apply NoDup_app. split_and!; [done | | apply NoDup_singleton].
  intros x Hx ->%list_elem_of_singleton.
  by apply Map_get_None_keys in Hget.
Qed.

Lemma Map_set_set k (v v' : V) m :
  Map_set k v' (Map_set k v m) = Map_set k v' m.
Proof.
  induction m as [|[k0 v0] m IH]; simpl.
  - by rewrite decide_True.
  - destruct (decide (k = k0)) as [->|Hne]; simpl.
    + by rewrite decide_True.
    + rewrite decide_False by done. by rewrite IH.
Qed.
End JsMapKeys.

(** ** Helper lemmas: the registry after one request *)

(** The registry after a [join-broadcast] is the registry before it, or
    the registry with the room's session replaced by the admitted one. *)
Lemma join_broadcast_sessions socket roomId userId userType tCreate tNow w :
  sessions (join_broadcast socket roomId userId userType tCreate tNow w).1
  = sessions w
  ∨ (roomId ≠ "" ∧ userId ≠ ""
     ∧ ∃ s',
         sessions
           (join_broadcast socket roomId userId userType tCreate tNow w).1
         = Map_set roomId s' (sessions w)
         ∧ (s' = admit_instructor socket userId tNow
                   (default (new_session tCreate)
                      (Map_get roomId (sessions w)))
            ∧ instructor_conflict
                (default (new_session tCreate)
                   (Map_get roomId (sessions w))) socket = false
            ∨ s' = admit_student socket userId tNow
                     (default (new_session tCreate)
                        (Map_get roomId (sessions w))))).
Proof.
  destruct (invalid_join roomId userId userType) eqn:Hinv.
  { rewrite join_broadcast_invalid by done. by left. }
  apply invalid_join_false in Hinv as (Hroom & Huser & [-> | ->]).
  - pose proof (get_or_create_fst roomId tCreate (sessions w)) as Hfst.
    destruct (instructor_conflict
                (get_or_create roomId tCreate (sessions w)).1 socket)
      eqn:Hconf.
    + rewrite join_broadcast_conflict by done. simpl. left.
      revert Hconf. unfold get_or_create.
      destruct (Map_get roomId (sessions w)); simpl; [done|].
      by rewrite instructor_conflict_new.
    + rewrite join_broadcast_instructor by done. simpl. right.
      split_and!; [done..|]. eexists. split.
      * unfold get_or_create at 2.
        destruct (Map_get roomId (sessions w)) eqn:Hget; simpl;
          [done | apply Map_set_set].
      * left. by rewrite <- Hfst.
  - rewrite join_broadcast_student by done. simpl. right.
    split_and!; [done..|]. eexists. split.
    + unfold get_or_create at 2.
      destruct (Map_get roomId (sessions w)) eqn:Hget; simpl;
        [done | apply Map_set_set].
    + right. by rewrite get_or_create_fst.
Qed.

Lemma handle_sessions_keys socket e w :
  (sessions w).*1 `prefix_of` (sessions (handle socket e w).1).*1
  ∧ (NoDup (sessions w).*1 → NoDup (sessions (handle socket e w).1).*1).
Proof.
  destruct e as [|roomId userId userType tCreate tNow|]; simpl; [done| |done].
  destruct (join_broadcast_sessions socket roomId userId userType
              tCreate tNow w) as [-> | (_ & _ & s' & -> & _)]; [done|].
  split; [apply Map_set_keys_prefix | apply Map_set_keys_NoDup].
Qed.

(** ** Helper lemmas: invariants of the state and of the emissions *)
Section RunInvariant.
Variable I : world → Prop.
Variable Q : emit → Prop.
Hypothesis I_handle : ∀ socket e w, I w → I (handle socket e w).1.
Hypothesis Q_handle : ∀ socket e w x,
  I w → x ∈ (handle socket e w).2 → Q x.

Lemma run_world_invariant evs w : I w → I (run evs w).1.
Proof.
  revert w. induction evs as [|[socket e] evs IH]; intros w Hw; [done|].
  rewrite run_cons. simpl. apply IH. by apply I_handle.
Qed.

Lemma run_emit_invariant evs w x : I w → x ∈ (run evs w).2 → Q x.
Proof.
  revert w. induction evs as [|[socket e] evs IH]; intros w Hw.
  - simpl. by intros ?%elem_of_nil.
  - rewrite run_cons. simpl. rewrite elem_of_app. intros [Hx | Hx].
    + by eapply Q_handle.
    + eapply IH; [|done]. by apply I_handle.
Qed.
End RunInvariant.

(** A reflexive and transitive relation between the states of a session
    that both admissions respect relates a registered session to the
    session of the same room after any run. *)
Section Related.
Variable R : session → session → Prop.
Hypothesis R_refl : ∀ s, R s s.
Hypothesis R_trans : ∀ s1 s2 s3, R s1 s2 → R s2 s3 → R s1 s3.
Hypothesis R_instructor : ∀ socket userId now s,
  instructor_conflict s socket = false →
  R s (admit_instructor socket userId now s).
Hypothesis R_student : ∀ socket userId now s,
  R s (admit_student socket userId now s).

Lemma session_step_related socket o o' s :
  session_step socket o o' → o = Some s → ∃ s', o' = Some s' ∧ R s s'.
Proof.
  intros Hstep.
  destruct Hstep as [o|o tCreate userId tNow Hconf|o tCreate userId tNow];
    intros ->; simpl in *; eauto.
Qed.

Lemma run_related evs w k s :
  Map_get k (sessions w) = Some s →
  ∃ s', Map_get k (sessions (run evs w).1) = Some s' ∧ R s s'.
Proof.
  revert w s. induction evs as [|[socket e] evs IH]; intros w s Hget.
  - simpl. eauto.
  - rewrite run_cons. simpl.
    destruct (session_step_related socket _ _ s
                (handle_session_step socket e w k) Hget)
      as (s1 & Hget1 & HR1).
    destruct (IH _ _ Hget1) as (s2 & Hget2 & HR2). eauto.
Qed.
End Related.

(** ** X1: the registry only grows *)

(** X1.  No event removes or reorders a room of the registry: the room
    ids registered before a run are, in the same order, the first room
    ids registered after it. *)
Theorem registry_only_grows (evs : list (string * event)) (w : world) :
  (sessions w).*1 `prefix_of` (sessions (run evs w).1).*1.
Proof.
  apply (run_world_invariant
           (λ w', (sessions w).*1 `prefix_of` (sessions w').*1)); [|done].
  intros socket e w' Hw'. etrans; [done|]. apply handle_sessions_keys.
Qed.

(** ** X2: a registered session stays, with its creation time *)

(** X2.  A session that is registered for a room is still registered for
    it after any run, with the [createdAt] and the [messages] it had. *)
Theorem session_persists
    (evs : list (string * event)) (w : world) (roomId : string)
    (s : session) :
  Map_get roomId (sessions w) = Some s →
  ∃ s', Map_get roomId (sessions (run evs w).1) = Some s'
        ∧ createdAt s' = createdAt s
        ∧ messages s' = messages s.
Proof.
  apply (run_related
           (λ s1 s2, createdAt s2 = createdAt s1 ∧ messages s2 = messages s1)).
  - done.
  - intros s1 s2 s3 [??] [??]. split; congruence.
  - done.
  - done.
Qed.

Lemma session_persists_witness :
  ∃ s', Map_get "r1"
          (sessions
             (run [("sA", Disconnect);
                   ("sD", JoinBroadcast "r1" "D" "student" 70%Z 80%Z);
                   ("sD", JoinBroadcast "r7" "D" "instructor" 90%Z 95%Z)]
                classroom).1) = Some s'
        ∧ createdAt s' = 5%Z
        ∧ messages s' = [].
Proof.
  apply (session_persists _ classroom "r1" lecture). vm_compute. reflexivity.
Defined.

(** ** X3: participants are never removed *)

(** X3.  Along any run the students of a room's session are never
    removed, and neither the size of [students] nor the count that
    [participants-updated] reports for the room ever decreases. *)
Theorem participants_never_decrease
    (evs : list (string * event)) (w : world) (roomId : string)
    (s : session) :
  Map_get roomId (sessions w) = Some s →
  ∃ s', Map_get roomId (sessions (run evs w).1) = Some s'
        ∧ dom (students s) ⊆ dom (students s')
        ∧ (size (students s) ≤ size (students s'))%nat
        ∧ (participants s ≤ participants s')%nat.
Proof.
  apply (run_related
           (λ s1 s2, dom (students s1) ⊆ dom (students s2)
                     ∧ (size (students s1) ≤ size (students s2))%nat
                     ∧ (participants s1 ≤ participants s2)%nat)).
  - done.
  - intros s1 s2 s3 (? & ? & ?) (? & ? & ?).
    split_and!; [set_solver | lia | lia].
  - intros socket userId now s0 _. split_and!; [done | done |].
    unfold participants, instructor_active. simpl.
    destruct (instructor s0) as [i|]; [destruct (i_active i)|]; lia.
  - intros socket userId now s0.
    assert (size (students s0)
            ≤ size (students (admit_student socket userId now s0)))%nat.
    { simpl. rewrite map_size_insert.
      destruct (students s0 !! userId); simpl; lia. }
    split_and!; [apply dom_insert_subseteq | done |].
    unfold participants, instructor_active in *. simpl in *.
    destruct (instructor s0) as [i|]; [destruct (i_active i)|]; lia.
Qed.

Lemma participants_never_decrease_witness :
  ∃ s', Map_get "r1"
          (sessions
             (run [("sB", Disconnect);
                   ("sA", Disconnect);
                   ("sD", JoinBroadcast "r1" "D" "student" 70%Z 80%Z)]
                classroom).1) = Some s'
        ∧ dom (students lecture) ⊆ dom (students s')
        ∧ (size (students lecture) ≤ size (students s'))%nat
        ∧ (participants lecture ≤ participants s')%nat.
Proof.
  apply (participants_never_decrease _ classroom "r1" lecture).
  vm_compute. reflexivity.
Defined.

(** ** X4: the instructor's socket is never replaced *)

Lemma run_keeps_instructor_socket evs w k s :
  Map_get k (sessions w) = Some s →
  ∃ s', Map_get k (sessions (run evs w).1) = Some s'
        ∧ keeps_instructor_socket s s'.
Proof.
  apply (run_related keeps_instructor_socket);
    unfold keeps_instructor_socket.
  - eauto.
  - intros s1 s2 s3 H12 H23 i1 H1 Ha1.
    destruct (H12 i1 H1 Ha1) as (i2 & H2 & Ha2 & <-). by apply H23.
  - intros socket userId now s0 Hconf i1 H1 Ha1.
    eexists. split_and!; [done..|]. simpl.
    unfold instructor_conflict in Hconf. rewrite H1, Ha1 in Hconf.
    by apply negb_false_iff, bool_decide_eq_true in Hconf.
  - eauto.
Qed.

(** X4.  Once a session records an active instructor, the record stays
    active on the same socket after any run, also one in which that
    socket disconnects; so a well-formed instructor [join-broadcast]
    from any other socket is still answered with the conflict error. *)
Theorem instructor_socket_never_replaced
    (evs : list (string * event)) (w : world) (roomId : string)
    (s : session) (i : instructor_t) :
  Map_get roomId (sessions w) = Some s →
  instructor s = Some i → i_active i = true →
  ∃ s' i',
    Map_get roomId (sessions (run evs w).1) = Some s'
    ∧ instructor s' = Some i'
    ∧ i_active i' = true
    ∧ i_socketId i' = i_socketId i
    ∧ ∀ socket userId tCreate tNow,
        socket ≠ i_socketId i → roomId ≠ "" → userId ≠ "" →
        (join_broadcast socket roomId userId "instructor" tCreate tNow
           (run evs w).1).2
        = [(ToSocket socket,
            Error "Another instructor is already active in this session.")].
Proof.
  intros Hget Hi Hact.
  destruct (run_keeps_instructor_socket evs w roomId s Hget)
    as (s' & Hget' & HR).
  destruct (HR i Hi Hact) as (i' & Hi' & Hact' & Hsock').
  exists s', i'. split_and!; [done..|].
  intros socket userId tCreate tNow Hne Hroom Huser.
  rewrite join_broadcast_conflict; [done..|].
  rewrite get_or_create_fst, Hget'. simpl.
  apply instructor_conflict_true. exists i'. split_and!; [done..|congruence].
Qed.

Lemma instructor_socket_never_replaced_witness :
  ∃ s' i',
    Map_get "r1"
      (sessions
         (run [("sA", Disconnect);
               ("sC", JoinBroadcast "r1" "C" "instructor" 70%Z 80%Z)]
            classroom).1) = Some s'
    ∧ instructor s' = Some i'
    ∧ i_active i' = true
    ∧ i_socketId i' = "sA"
    ∧ ∀ socket userId tCreate tNow,
        socket ≠ "sA" → "r1" ≠ "" → userId ≠ "" →
        (join_broadcast socket "r1" userId "instructor" tCreate tNow
           (run [("sA", Disconnect);
                 ("sC", JoinBroadcast "r1" "C" "instructor" 70%Z 80%Z)]
              classroom).1).2
        = [(ToSocket socket,
            Error "Another instructor is already active in this session.")].
Proof.
  apply (instructor_socket_never_replaced _ classroom "r1" lecture
           (Instructor "A" "sA" true)).
  - vm_compute. reflexivity.
  - reflexivity.
  - reflexivity.
Defined.

(** ** Helper lemmas: the result of a request, by cases *)

(** The four ways through the handler, each with the state and the
    emissions it ends with; [s0] is the room's session at line 146. *)
Lemma join_broadcast_cases socket roomId userId userType tCreate tNow w :
  let s0 := default (new_session tCreate) (Map_get roomId (sessions w)) in
  let jb := join_broadcast socket roomId userId userType tCreate tNow w in
  (invalid_join roomId userId userType = true
   ∧ jb = (w, [(ToSocket socket, Error "Invalid join parameters.")]))
  ∨ (invalid_join roomId userId userType = false
     ∧ userType = "instructor"
     ∧ instructor_conflict s0 socket = true
     ∧ is_Some (Map_get roomId (sessions w))
     ∧ jb = ({| sessions := sessions w;
                rooms := socket_leave socket roomId
                           (socket_join socket roomId (rooms w)) |},
             [(ToSocket socket,
               Error "Another instructor is already active in this session.")]))
  ∨ (invalid_join roomId userId userType = false
     ∧ userType = "instructor"
     ∧ instructor_conflict s0 socket = false
     ∧ jb = ({| sessions := Map_set roomId
                              (admit_instructor socket userId tNow s0)
                              (sessions w);
                rooms := socket_join socket roomId (rooms w) |},
             [(ToRoom roomId,
               BroadcastStarted userId
                 (startTime (admit_instructor socket userId tNow s0)));
              (ToRoom roomId,
               ParticipantsUpdated
                 (participants (admit_instructor socket userId tNow s0)))]))
  ∨ (invalid_join roomId userId userType = false
     ∧ userType = "student"
     ∧ jb = ({| sessions := Map_set roomId
                              (admit_student socket userId tNow s0)
                              (sessions w);
                rooms := socket_join socket roomId (rooms w) |},
             (student_joined roomId userId
                (admit_student socket userId tNow s0)
              ++ [(ToSocket socket,
                   SessionInfo (isLive s0) (startTime s0) (messages s0)
                     (size (students (admit_student socket userId tNow s0)))
                     (instructor_active s0));
                  (ToRoom roomId,
                   ParticipantsUpdated
                     (participants
                        (admit_student socket userId tNow s0)))])%list)).
Proof.
  intros s0 jb. subst jb.
  pose proof (get_or_create_fst roomId tCreate (sessions w)) as Hfst.
  fold s0 in Hfst.
  assert ((get_or_create roomId tCreate (sessions w)).2
          = match Map_get roomId (sessions w) with
            | Some _ => sessions w
            | None => Map_set roomId (new_session tCreate) (sessions w)
            end) as Hsnd.
  { unfold get_or_create. by destruct (Map_get roomId (sessions w)). }
  assert (∀ s', Map_set roomId s'
                  (get_or_create roomId tCreate (sessions w)).2
                = Map_set roomId s' (sessions w)) as Hset.
  { intros s'. rewrite Hsnd.
    destruct (Map_get roomId (sessions w)); [done | apply Map_set_set]. }
  destruct (invalid_join roomId userId userType) eqn:Hinv.
  { left. split; [done|]. by apply join_broadcast_invalid. }
  right. pose proof Hinv as Hvalid.
  apply invalid_join_false in Hvalid as (Hroom & Huser & [-> | ->]).
  - destruct (instructor_conflict s0 socket) eqn:Hconf.
    + left. split_and!; [done..| |].
      * subst s0. destruct (Map_get roomId (sessions w)); [done|].
        simpl in Hconf. by rewrite instructor_conflict_new in Hconf.
      * rewrite join_broadcast_conflict by (by rewrite ?Hfst).
        rewrite Hsnd. subst s0.
        destruct (Map_get roomId (sessions w)); [done|].
        simpl in Hconf. by rewrite instructor_conflict_new in Hconf.
    + right. left. split_and!; [done..|].
      rewrite join_broadcast_instructor by (by rewrite ?Hfst).
      by rewrite Hset, Hfst.
  - right. right. split_and!; [done..|].
    rewrite join_broadcast_student by done.
    by rewrite Hset, Hfst.
Qed.

(** ** Helper lemmas: room membership *)

Lemma room_members_socket_join socket room rooms k :
  room_members (socket_join socket room rooms) k
  = if decide (k = room)
    then {[socket]} ∪ room_members rooms room
    else room_members rooms k.
Proof.
  unfold room_members, socket_join. case_decide as Hk.
  - subst k. by rewrite lookup_insert_eq.
  - by rewrite lookup_insert_ne.
Qed.

Lemma room_members_socket_leave socket room rooms k :
  room_members (socket_leave socket room rooms) k
  = if decide (k = room)
    then room_members rooms room ∖ {[socket]}
    else room_members rooms k.
Proof.
  unfold room_members, socket_leave.
  destruct (rooms !! room) as [members|] eqn:Hroom.
  - unfold room_del. case_decide as Hempty; case_decide as Hk; subst.
    + rewrite lookup_delete_eq. simpl. by rewrite Hempty.
    + by rewrite lookup_delete_ne.
    + by rewrite lookup_insert_eq.
    + by rewrite lookup_insert_ne.
  - case_decide as Hk; [|done]. subst k. rewrite Hroom. simpl. set_solver.
Qed.

(** ** Helper lemmas: the listing *)

Lemma elem_of_live_listing w e :
  e ∈ live_listing w
  ↔ ∃ roomId s i,
      (roomId, s) ∈ sessions w
      ∧ isLive s = true ∧ instructor s = Some i ∧ i_active i = true
      ∧ e = live_entry_of roomId s i.
Proof.
  unfold live_listing, live_sessions. simpl. revert e.
  induction (sessions w) as [|[k s] ss IH]; intros e; cbn [fold_left].
  - split; [by intros ?%elem_of_nil|].
    by intros (? & ? & ? & ?%elem_of_nil & _).
  - rewrite fold_left_push_if_live, elem_of_app, IH, elem_of_push_if_live.
    split.
    + intros [(i & Hi & Hlive & Hact & ->)
             | (roomId & s' & i & Hin & H)].
      * exists k, s, i. split_and!; try done. left.
      * exists roomId, s', i. split; [by right | done].
    + intros (roomId & s' & i & Hin & Hlive & Hi & Hact & ->).
      apply elem_of_cons in Hin as [[= -> ->] | Hin].
      * left. eauto.
      * right. exists roomId, s', i. done.
Qed.

Lemma live_listing_ids_sublist ss :
  le_id <$> fold_left push_if_live ss [] `sublist_of` ss.*1.
Proof.
  induction ss as [|[k s] ss IH]; cbn [fold_left]; [done|].
  rewrite fold_left_push_if_live, fmap_app. csimpl.
  change (k :: ss.*1) with ([k] ++ ss.*1)%list.
  apply sublist_app; [|done].
  unfold push_if_live. destruct (instructor s) as [i|]; [|apply sublist_nil_l].
  destruct (isLive s && i_active i); [done | apply sublist_nil_l].
Qed.

(** ** X5: a live room stays in the listing *)

Lemma run_stays_live evs w k s :
  Map_get k (sessions w) = Some s →
  ∃ s', Map_get k (sessions (run evs w).1) = Some s' ∧ stays_live s s'.
Proof.
  apply (run_related stays_live); unfold stays_live.
  - intros s0 Hlive Hact. split_and!; [done..|]. auto.
  - intros s1 s2 s3 H12 H23 Hlive Hact.
    destruct (H12 Hlive Hact) as (Hlive2 & Hact2 & Hsize2 & Hstart2).
    destruct (H23 Hlive2 Hact2) as (Hlive3 & Hact3 & Hsize3 & Hstart3).
    split_and!; [done | done | lia | auto].
  - intros socket userId now s0 _ Hlive Hact.
    split_and!; [done | done | done |]. simpl. by intros t ->.
  - intros socket userId now s0 Hlive Hact.
    split_and!; [done | done | | done]. simpl. rewrite map_size_insert.
    destruct (students s0 !! userId); simpl; lia.
Qed.

(** X5.  A room that is live under an active instructor is listed by the
    live-sessions query after any run, also one in which the instructor's
    socket disconnects: the listing has an entry for the room with at
    least the participants it had and, when the session had started,
    with the same [startTime]. *)
Theorem live_room_stays_listed
    (evs : list (string * event)) (w : world) (roomId : string)
    (s : session) :
  Map_get roomId (sessions w) = Some s →
  isLive s = true → instructor_active s = true →
  ∃ e, e ∈ live_listing (run evs w).1
       ∧ le_id e = roomId
       ∧ (size (students s) + 1 ≤ le_participants e)%nat
       ∧ ∀ t, startTime s = Some t → le_startTime e = Some t.
Proof.
  intros Hget Hlive Hact.
  destruct (run_stays_live evs w roomId s Hget) as (s' & Hget' & HR).
  destruct (HR Hlive Hact) as (Hlive' & Hact' & Hsize & Hstart).
  unfold instructor_active in Hact'.
  destruct (instructor s') as [i'|] eqn:Hi'; [|done].
  exists (live_entry_of roomId s' i'). split_and!.
  - apply elem_of_live_listing. exists roomId, s', i'.
    split_and!; [by apply Map_get_Some_elem | done..].
  - done.
  - simpl. lia.
  - done.
Qed.

Lemma live_room_stays_listed_witness :
  ∃ e, e ∈ live_listing
             (run [("sA", Disconnect); ("sB", Disconnect)] classroom).1
       ∧ le_id e = "r1"
       ∧ (size (students lecture) + 1 ≤ le_participants e)%nat
       ∧ ∀ t, startTime lecture = Some t → le_startTime e = Some t.
Proof.
  apply (live_room_stays_listed _ classroom "r1" lecture).
  - vm_compute. reflexivity.
  - reflexivity.
  - reflexivity.
Defined.

(** ** X6: one entry per room in the listing *)

(** X6.  In every state reached from the initial one the live-sessions
    query reports no room twice. *)
Theorem live_listing_rooms_distinct (evs : list (string * event)) :
  NoDup (le_id <$> live_listing (run evs initial).1).
Proof.
  eapply sublist_NoDup; [|apply live_listing_ids_sublist].
  apply (run_world_invariant (λ w, NoDup (sessions w).*1)).
  - intros socket e w. apply handle_sessions_keys.
  - apply NoDup_nil_2.
Qed.

(** ** X7: who receives which event *)

(** X7.  Every event that a [join-broadcast] emits is addressed as
    follows: [error] and [session-info] to the requesting socket,
    [broadcast-started] and [participants-updated] to the room of the
    request, and [student-joined] to the socket recorded for the room's
    active instructor. *)
Theorem join_broadcast_routing
    (w : world) (socket roomId userId userType : string)
    (tCreate tNow : Date) (x : emit) :
  x ∈ (join_broadcast socket roomId userId userType tCreate tNow w).2 →
  routed socket roomId
    (join_broadcast socket roomId userId userType tCreate tNow w).1 x.
Proof.
  destruct (join_broadcast_cases socket roomId userId userType tCreate tNow w)
    as [(_ & ->) | [(_ & _ & _ & _ & ->) | [(_ & _ & _ & ->) | (_ & _ & ->)]]];
    simpl.
  - by intros ->%list_elem_of_singleton.
  - by intros ->%list_elem_of_singleton.
  - rewrite !elem_of_cons, elem_of_nil. by intros [-> | [-> | []]].
  - rewrite elem_of_app, !elem_of_cons, elem_of_nil.
    intros [Hx | [-> | [-> | []]]]; [|done..].
    unfold student_joined in Hx. simpl in Hx.
    destruct (instructor _) as [i|] eqn:Hi; [|by apply elem_of_nil in Hx].
    destruct (i_active i) eqn:Hact; [|by apply elem_of_nil in Hx].
    apply list_elem_of_singleton in Hx as ->. unfold routed. simpl.
    eexists _, i. rewrite Map_get_set_eq. by split_and!.
Qed.

Lemma join_broadcast_routing_witness :
  routed "sD" "r1"
    (join_broadcast "sD" "r1" "D" "student" 70%Z 80%Z classroom).1
    (ToRoom "sA", StudentJoined "r1" "D" 2).
Proof.
  apply (join_broadcast_routing classroom "sD" "r1" "D" "student" 70%Z 80%Z).
  vm_compute. left.
Defined.

(** ** X8: no session ever has messages *)

(** X8.  The program never appends to [messages]: in every state reached
    from the initial one each session's [messages] is empty, and every
    [session-info] emitted on the way carries an empty [messages]. *)
Theorem messages_always_empty (evs : list (string * event)) :
  (∀ roomId s,
     Map_get roomId (sessions (run evs initial).1) = Some s →
     messages s = [])
  ∧ (∀ target live start msgs total active,
       (target, SessionInfo live start msgs total active)
         ∈ (run evs initial).2 →
       msgs = []).
Proof.
  pose (I := λ w : world,
          ∀ k s, Map_get k (sessions w) = Some s → messages s = []).
  pose (Q := λ x : emit,
          ∀ live start msgs total active,
            x.2 = SessionInfo live start msgs total active → msgs = []).
  assert (∀ socket e w, I w → I (handle socket e w).1) as I_handle.
  { intros socket e w Hw k s.
    apply (session_step_preserves (λ s, messages s = []))
      with socket (Map_get k (sessions w)); try done.
    - apply handle_session_step.
    - apply Hw. }
  assert (∀ socket e w x, I w → x ∈ (handle socket e w).2 → Q x) as Q_handle.
  { intros socket e w x Hw.
    destruct e as [|roomId userId userType tCreate tNow|]; simpl;
      [by intros ?%elem_of_nil| |by intros ?%elem_of_nil].
    destruct (join_broadcast_cases socket roomId userId userType
                tCreate tNow w)
      as [(_ & ->) | [(_ & _ & _ & _ & ->)
                     | [(_ & _ & _ & ->) | (_ & _ & ->)]]];
      simpl.
    - by intros ->%list_elem_of_singleton.
    - by intros ->%list_elem_of_singleton.
    - rewrite !elem_of_cons, elem_of_nil. by intros [-> | [-> | []]].
    - rewrite elem_of_app, !elem_of_cons, elem_of_nil.
      intros [Hx | [-> | [-> | []]]]; [| |done].
      + unfold student_joined in Hx.
        destruct (instructor _) as [i|]; [|by apply elem_of_nil in Hx].
        destruct (i_active i); [|by apply elem_of_nil in Hx].
        by apply list_elem_of_singleton in Hx as ->.
      + intros live start msgs total active [= _ _ <- _ _].
        destruct (Map_get roomId (sessions w)) as [s|] eqn:Hget; simpl;
          [by eapply Hw | done]. }
  assert (I initial) as I_initial by done.
  split.
  - apply (run_world_invariant I I_handle evs initial I_initial).
  - intros target live start msgs total active Hin.
    by apply (run_emit_invariant I Q I_handle Q_handle evs initial _
                I_initial Hin live start msgs total active).
Qed.

Lemma messages_always_empty_witness :
  (∃ s, Map_get "r1" (sessions (run scenario initial).1) = Some s
        ∧ messages s = [])
  ∧ (ToSocket "sB", SessionInfo true (Some 10%Z) [] 1 true)
      ∈ (run scenario initial).2.
Proof.
  split.
  - exists lecture. split; [vm_compute; reflexivity|].
    apply (proj1 (messages_always_empty scenario) "r1").
    vm_compute. reflexivity.
  - vm_compute. do 3 right. left.
Defined.

(** ** X9: [broadcast-started] always reports the first start *)

(** X9.  Once a room's session has a [startTime], every
    [broadcast-started] that any later run sends to the room carries
    that [startTime]. *)
Theorem broadcast_started_reports_first_start
    (evs : list (string * event)) (w : world) (roomId : string) (t : Date)
    (userId : string) (start : option Date) :
  startTime_of roomId w = Some t →
  (ToRoom roomId, BroadcastStarted userId start) ∈ (run evs w).2 →
  start = Some t.
Proof.
  intros Hw Hin.
  apply (run_emit_invariant
           (λ w', startTime_of roomId w' = Some t)
           (λ x, ∀ u st, x = (ToRoom roomId, BroadcastStarted u st) →
                         st = Some t))
    with evs w (ToRoom roomId, BroadcastStarted userId start) userId;
    try done.
  - intros socket e w' Hw'.
    by eapply session_step_startTime; [apply handle_session_step|].
  - clear. intros socket e w x Hw.
    destruct e as [|roomId' userId userType tCreate tNow|]; simpl;
      [by intros ?%elem_of_nil| |by intros ?%elem_of_nil].
    destruct (join_broadcast_cases socket roomId' userId userType
                tCreate tNow w)
      as [(_ & ->) | [(_ & _ & _ & _ & ->)
                     | [(_ & _ & _ & ->) | (_ & _ & ->)]]];
      simpl.
    + by intros ->%list_elem_of_singleton.
    + by intros ->%list_elem_of_singleton.
    + rewrite !elem_of_cons, elem_of_nil.
      intros [-> | [-> | []]]; [|done].
      intros u st [= -> <- <-]. unfold startTime_of in Hw.
      destruct (Map_get roomId (sessions w)) as [s|]; simpl in *; [|done].
      by rewrite Hw.
    + rewrite elem_of_app, !elem_of_cons, elem_of_nil.
      intros [Hx | [-> | [-> | []]]]; [|done..].
      unfold student_joined in Hx.
      destruct (instructor _) as [i|]; [|by apply elem_of_nil in Hx].
      destruct (i_active i); [|by apply elem_of_nil in Hx].
      by apply list_elem_of_singleton in Hx as ->.
Qed.

Lemma broadcast_started_reports_first_start_witness :
  startTime_of "r1" classroom = Some 10%Z
  ∧ (ToRoom "r1", BroadcastStarted "A2" (Some 10%Z))
      ∈ (run [("sA", JoinBroadcast "r1" "A2" "instructor" 50%Z 60%Z)]
           classroom).2
  ∧ Some 10%Z = Some 10%Z :> option Date.
Proof.
  assert ((ToRoom "r1", BroadcastStarted "A2" (Some 10%Z))
          ∈ (run [("sA", JoinBroadcast "r1" "A2" "instructor" 50%Z 60%Z)]
               classroom).2) as Hin by (vm_compute; left).
  assert (startTime_of "r1" classroom = Some 10%Z) as Hstart
    by (vm_compute; reflexivity).
  split_and!; [exact Hstart | exact Hin |].
  exact (broadcast_started_reports_first_start _ classroom "r1" 10%Z "A2"
           (Some 10%Z) Hstart Hin).
Defined.

(** ** X10: the broadcast count and the listing agree *)

(** X10.  After an admitted instructor [join-broadcast] the live-sessions
    query lists the room with the requester as instructor, with the
    [startTime] that [broadcast-started] announced and with the count
    that [participants-updated] announced. *)
Theorem admitted_instructor_is_listed
    (w : world) (socket roomId userId : string) (tCreate tNow : Date) :
  roomId ≠ "" → userId ≠ "" →
  join_rejected socket roomId userId "instructor" w = false →
  ∃ w' start count,
    join_broadcast socket roomId userId "instructor" tCreate tNow w
    = (w', [(ToRoom roomId, BroadcastStarted userId start);
            (ToRoom roomId, ParticipantsUpdated count)])
    ∧ {| le_id := roomId; le_startTime := start;
         le_participants := count; le_instructorId := userId |}
      ∈ live_listing w'.
Proof.
  intros Hroom Huser Hrej. unfold join_rejected in Hrej.
  apply orb_false_iff in Hrej as [Hinv Hrej].
  rewrite bool_decide_eq_true_2 in Hrej by done. simpl in Hrej.
  destruct (join_broadcast_cases socket roomId userId "instructor"
              tCreate tNow w)
    as [(Hi & _) | [(_ & _ & Hconf & _ & _)
                   | [(_ & _ & _ & ->) | (_ & [=] & _)]]].
  - congruence.
  - revert Hconf Hrej. destruct (Map_get roomId (sessions w)); simpl;
      [congruence | by rewrite instructor_conflict_new].
  - do 3 eexists. split; [reflexivity|].
    apply elem_of_live_listing.
    eexists roomId, _, _. split_and!.
    + apply Map_get_Some_elem. simpl. apply Map_get_set_eq.
    + done.
    + done.
    + done.
    + unfold live_entry_of, participants, instructor_active. by simpl.
Qed.

Lemma admitted_instructor_is_listed_witness :
  ∃ w' start count,
    join_broadcast "sT" "r3" "T" "instructor" 100%Z 110%Z classroom
    = (w', [(ToRoom "r3", BroadcastStarted "T" start);
            (ToRoom "r3", ParticipantsUpdated count)])
    ∧ {| le_id := "r3"; le_startTime := start;
         le_participants := count; le_instructorId := "T" |}
      ∈ live_listing w'.
Proof.
  apply (admitted_instructor_is_listed classroom "sT" "r3" "T" 100%Z 110%Z).
  - done.
  - done.
  - vm_compute. reflexivity.
Defined.

(** ** X11: what the validation guarantees of the registry *)

(** X11.  In every state reached from the initial one no session is
    registered under the empty room id, no instructor record and no
    student entry has the empty identity, and every student entry is
    marked active. *)
Theorem reachable_sessions_validated
    (evs : list (string * event)) (roomId : string) (s : session) :
  Map_get roomId (sessions (run evs initial).1) = Some s →
  session_validated roomId s.
Proof.
  revert roomId s.
  apply (run_world_invariant
           (λ w, ∀ k s, Map_get k (sessions w) = Some s →
                        session_validated k s)); [|done].
  intros socket e w Hw k s.
  destruct e as [|roomId userId userType tCreate tNow|]; simpl;
    [apply Hw| |apply Hw].
  destruct (join_broadcast_sessions socket roomId userId userType
              tCreate tNow w)
    as [-> | (Hroom & Huser & s' & -> & Hs')]; [apply Hw|].
  rewrite Map_get_set. case_decide as Hk; [|apply Hw].
  subst k. intros [= <-].
  assert (session_validated roomId
            (default (new_session tCreate) (Map_get roomId (sessions w))))
    as (_ & Hinstr & Hstud).
  { destruct (Map_get roomId (sessions w)) as [s0|] eqn:Hget; simpl.
    - by apply Hw.
    - split_and!; [done | done |]. intros u st Hu. simpl in Hu.
      by rewrite lookup_empty in Hu. }
  destruct Hs' as [[-> _] | ->]; split_and!; simpl; try done.
  - by intros i [= <-].
  - intros u st. rewrite lookup_insert. case_decide as Hu.
    + subst u. by intros [= <-].
    + apply Hstud.
Qed.

Lemma reachable_sessions_validated_witness :
  session_validated "r1" lecture.
Proof.
  apply (reachable_sessions_validated scenario "r1" lecture).
  vm_compute. reflexivity.
Defined.

(** ** X12: an error means that nothing was admitted *)

(** X12.  A [join-broadcast] that emits an [error] emits nothing else and
    leaves the registry as it was; one that emits no [error] leaves the
    room registered and the requester in the room. *)
Theorem error_iff_nothing_admitted
    (w : world) (socket roomId userId userType : string)
    (tCreate tNow : Date) :
  let jb := join_broadcast socket roomId userId userType tCreate tNow w in
  ((∃ target text, (target, Error text) ∈ jb.2) →
   sessions jb.1 = sessions w
   ∧ ∃ text, jb.2 = [(ToSocket socket, Error text)])
  ∧ (¬ (∃ target text, (target, Error text) ∈ jb.2) →
     is_Some (Map_get roomId (sessions jb.1))
     ∧ socket ∈ room_members (rooms jb.1) roomId).
Proof.
  intros jb. subst jb.
  destruct (join_broadcast_cases socket roomId userId userType tCreate tNow w)
    as [(_ & ->) | [(_ & _ & _ & _ & ->)
                   | [(_ & _ & _ & ->) | (_ & _ & ->)]]];
    simpl.
  - split; [eauto|]. intros []. do 2 eexists. left.
  - split; [eauto|]. intros []. do 2 eexists. left.
  - split.
    + intros (target & text & Hin).
      apply elem_of_cons in Hin as [[=] | Hin].
      by apply list_elem_of_singleton in Hin.
    + intros _. rewrite Map_get_set_eq. split; [eauto|].
      apply elem_of_socket_join.
  - split.
    + intros (target & text & Hin). exfalso.
      apply elem_of_app in Hin as [Hin | Hin].
      * unfold student_joined in Hin.
        destruct (instructor _) as [i|]; [|by apply elem_of_nil in Hin].
        destruct (i_active i); [|by apply elem_of_nil in Hin].
        by apply list_elem_of_singleton in Hin.
      * apply elem_of_cons in Hin as [[=] | Hin].
        by apply list_elem_of_singleton in Hin.
    + intros _. rewrite Map_get_set_eq. split; [eauto|].
      apply elem_of_socket_join.
Qed.

Lemma error_iff_nothing_admitted_witness :
  (sessions
     (join_broadcast "sC" "r1" "C" "instructor" 25%Z 30%Z classroom).1
   = sessions classroom
   ∧ ∃ text,
       (join_broadcast "sC" "r1" "C" "instructor" 25%Z 30%Z classroom).2
       = [(ToSocket "sC", Error text)])
  ∧ (is_Some
       (Map_get "r4"
          (sessions
             (join_broadcast "sC" "r4" "C" "instructor" 25%Z 30%Z
                classroom).1))
     ∧ "sC" ∈ room_members
                (rooms
                   (join_broadcast "sC" "r4" "C" "instructor" 25%Z 30%Z
                      classroom).1) "r4").
Proof.
  split.
  - apply (proj1 (error_iff_nothing_admitted classroom "sC" "r1" "C"
                    "instructor" 25%Z 30%Z)).
    do 2 eexists. vm_compute. left.
  - apply (proj2 (error_iff_nothing_admitted classroom "sC" "r4" "C"
                    "instructor" 25%Z 30%Z)).
    intros (target & text & Hin). vm_compute in Hin.
    apply elem_of_cons in Hin as [[=] | Hin].
    by apply list_elem_of_singleton in Hin.
Defined.

(** ** X13: a request touches one room *)

(** X13.  A [join-broadcast] for a room leaves the session and the
    members of every other room as they were. *)
Theorem join_broadcast_other_rooms_untouched
    (w : world) (socket roomId userId userType : string)
    (tCreate tNow : Date) (k : string) :
  k ≠ roomId →
  let w' := (join_broadcast socket roomId userId userType tCreate tNow w).1 in
  Map_get k (sessions w') = Map_get k (sessions w)
  ∧ room_members (rooms w') k = room_members (rooms w) k.
Proof.
  intros Hk w'. subst w'.
  destruct (join_broadcast_cases socket roomId userId userType tCreate tNow w)
    as [(_ & ->) | [(_ & _ & _ & _ & ->)
                   | [(_ & _ & _ & ->) | (_ & _ & ->)]]];
    simpl.
  - done.
  - split; [done|].
    rewrite room_members_socket_leave, decide_False by done.
    rewrite room_members_socket_join. by rewrite decide_False.
  - rewrite Map_get_set_ne by done. split; [done|].
    rewrite room_members_socket_join. by rewrite decide_False.
  - rewrite Map_get_set_ne by done. split; [done|].
    rewrite room_members_socket_join. by rewrite decide_False.
Qed.

Lemma join_broadcast_other_rooms_untouched_witness :
  let w' := (join_broadcast "sT" "r3" "T" "instructor" 100%Z 110%Z
               classroom).1 in
  Map_get "r1" (sessions w') = Map_get "r1" (sessions classroom)
  ∧ room_members (rooms w') "r1" = room_members (rooms classroom) "r1".
Proof.
  apply (join_broadcast_other_rooms_untouched classroom "sT" "r3" "T"
           "instructor" 100%Z 110%Z "r1").
  done.
Defined.

(** ** X14: who is in the room after a request *)

(** X14.  An invalid [join-broadcast] leaves the members of the room as
    they were; one rejected for an instructor conflict leaves the room
    without the requester, also when the requester was a member before;
    an admitted one adds the requester and removes nobody. *)
Theorem join_broadcast_room_members
    (w : world) (socket roomId userId userType : string)
    (tCreate tNow : Date) :
  room_members
    (rooms (join_broadcast socket roomId userId userType tCreate tNow w).1)
    roomId
  = if invalid_join roomId userId userType then
      room_members (rooms w) roomId
    else if join_rejected socket roomId userId userType w then
      room_members (rooms w) roomId ∖ {[socket]}
    else
      {[socket]} ∪ room_members (rooms w) roomId.
Proof.
  unfold join_rejected.
  destruct (join_broadcast_cases socket roomId userId userType tCreate tNow w)
    as [(-> & ->) | [(-> & -> & Hconf & [s Hget] & ->)
                    | [(-> & -> & Hconf & ->) | (-> & -> & ->)]]];
    simpl.
  - done.
  - rewrite Hget in Hconf |- *. simpl in Hconf. rewrite Hconf. simpl.
    rewrite room_members_socket_leave, room_members_socket_join.
    rewrite !decide_True by done. set_solver.
  - assert (match Map_get roomId (sessions w) with
            | Some s => instructor_conflict s socket
            | None => false
            end = false) as ->.
    { by destruct (Map_get roomId (sessions w)). }
    simpl. rewrite room_members_socket_join. by rewrite decide_True.
  - rewrite room_members_socket_join. by rewrite decide_True.
Qed.

(** ** X15: repeating an instructor join changes nothing *)

Lemma admit_instructor_idem socket userId now now' s :
  admit_instructor socket userId now'
    (admit_instructor socket userId now s)
  = admit_instructor socket userId now s.
Proof. unfold admit_instructor. simpl. by destruct (startTime s). Qed.

Lemma socket_join_idem socket room rooms :
  socket_join socket room (socket_join socket room rooms)
  = socket_join socket room rooms.
Proof.
  unfold socket_join. rewrite lookup_insert_eq, insert_insert_eq. simpl.
  f_equal. set_solver.
Qed.

(** X15.  When an instructor [join-broadcast] has been admitted, the same
    request sent again from the same socket, at any later time, is
    admitted again, leaves the whole state as the first left it and
    emits the same two events with the same [startTime] and count. *)
Theorem instructor_join_idempotent
    (w : world) (socket roomId userId : string)
    (tCreate tNow tCreate' tNow' : Date) :
  roomId ≠ "" → userId ≠ "" →
  join_rejected socket roomId userId "instructor" w = false →
  let jb := join_broadcast socket roomId userId "instructor" tCreate tNow w in
  join_broadcast socket roomId userId "instructor" tCreate' tNow' jb.1
  = (jb.1, jb.2).
Proof.
  intros Hroom Huser Hrej jb. subst jb. unfold join_rejected in Hrej.
  apply orb_false_iff in Hrej as [Hinv Hrej].
  rewrite bool_decide_eq_true_2 in Hrej by done. simpl in Hrej.
  destruct (join_broadcast_cases socket roomId userId "instructor"
              tCreate tNow w)
    as [(Hi & _) | [(_ & _ & Hconf & _ & _)
                   | [(_ & _ & _ & ->) | (_ & [=] & _)]]].
  - congruence.
  - revert Hconf Hrej. destruct (Map_get roomId (sessions w)); simpl;
      [congruence | by rewrite instructor_conflict_new].
  - cbn [fst snd].
    set (s1 := admit_instructor socket userId tNow
                 (default (new_session tCreate)
                    (Map_get roomId (sessions w)))).
    destruct (join_broadcast_cases socket roomId userId "instructor"
                tCreate' tNow'
                {| sessions := Map_set roomId s1 (sessions w);
                   rooms := socket_join socket roomId (rooms w) |})
      as [(Hi & _) | [(_ & _ & Hconf & _ & _)
                     | [(_ & _ & _ & ->) | (_ & [=] & _)]]]; simpl in *.
    + congruence.
    + rewrite Map_get_set_eq in Hconf. simpl in Hconf.
      unfold instructor_conflict in Hconf. simpl in Hconf.
      by rewrite bool_decide_eq_true_2 in Hconf.
    + rewrite Map_get_set_eq. simpl. subst s1.
      rewrite admit_instructor_idem, Map_set_set, socket_join_idem.
      by destruct (startTime _).
Qed.

Lemma instructor_join_idempotent_witness :
  let jb := join_broadcast "sT" "r3" "T" "instructor" 100%Z 110%Z classroom in
  join_broadcast "sT" "r3" "T" "instructor" 200%Z 210%Z jb.1 = (jb.1, jb.2).
Proof.
  apply (instructor_join_idempotent classroom "sT" "r3" "T"
           100%Z 110%Z 200%Z 210%Z).
  - done.
  - done.
  - vm_compute. reflexivity.
Defined.

(** ** X16: the CORS middleware *)

(** X16.  On a response that has no [Access-Control-Allow-Origin] header
    yet, the middleware leaves it with that header exactly when the
    request's [Origin] is one of the four allowed origins, the value
    being that origin; in every case it sets
    [Access-Control-Allow-Credentials] to "true", and it answers with
    status 200 without calling [next] exactly when the method is
    OPTIONS, whatever the origin. *)
Theorem cors_middleware_headers
    (req : request) (headers : gmap string string) :
  headers !! "Access-Control-Allow-Origin" = None →
  (∀ v, (cors_middleware req headers).1 !! "Access-Control-Allow-Origin"
        = Some v
        ↔ req_origin req = Some v ∧ v ∈ allowedOrigins)
  ∧ (cors_middleware req headers).1 !! "Access-Control-Allow-Credentials"
    = Some "true"
  ∧ (cors_middleware req headers).2
    = if bool_decide (req_method req = "OPTIONS")
      then SendStatus 200 else CallNext.
Proof.
  intros Hfresh. unfold cors_middleware.
  set (h1 := match req_origin req with
             | Some origin => _
             | None => _
             end).
  assert (∀ v, h1 !! "Access-Control-Allow-Origin" = Some v
               ↔ req_origin req = Some v ∧ v ∈ allowedOrigins) as Hh1.
  { intros v. subst h1. destruct (req_origin req) as [origin|].
    - case_bool_decide as Hin.
      + rewrite lookup_insert_eq. naive_solver.
      + rewrite Hfresh. naive_solver.
    - rewrite Hfresh. naive_solver. }
  split_and!.
  - intros v. rewrite <- Hh1.
    by destruct (bool_decide (req_method req = "OPTIONS")); simpl;
      rewrite !lookup_insert_ne by done.
  - by destruct (bool_decide (req_method req = "OPTIONS")); simpl;
      rewrite lookup_insert_eq.
  - by destruct (bool_decide (req_method req = "OPTIONS")).
Qed.

Lemma cors_middleware_headers_witness :
  (∀ v, (cors_middleware
           {| req_origin := Some "https://evil.example";
              req_method := "OPTIONS" |} ∅).1
        !! "Access-Control-Allow-Origin" = Some v
        ↔ Some "https://evil.example" = Some v ∧ v ∈ allowedOrigins)
  ∧ (cors_middleware
       {| req_origin := Some "https://evil.example";
          req_method := "OPTIONS" |} ∅).1
    !! "Access-Control-Allow-Credentials" = Some "true"
  ∧ (cors_middleware
       {| req_origin := Some "https://evil.example";
          req_method := "OPTIONS" |} ∅).2
    = SendStatus 200.
Proof.
  apply (cors_middleware_headers
           {| req_origin := Some "https://evil.example";
              req_method := "OPTIONS" |} ∅).
  apply lookup_empty.
Defined.
